(** * Caste distribution dashboard: the query and aggregation core

    A shallow embedding of [dash_public.py]: the household table read from
    the Parquet file, the SQL that the cached functions send to DuckDB, the
    meaning of that SQL over a table, the engine's answer to the statements
    as the program writes them, and the Python code around the calls (the
    [try]/[except] blocks, the sentinel insertion, the total computed from
    the returned frame, the dropdown defaults and the page). *)

From Stdlib Require Import List ZArith String Ascii Bool Lia Permutation Sorted.
From Stdlib Require Import DecimalString DecimalPos DecimalZ.
Import ListNotations.
Local Open Scope string_scope.
Local Open Scope Z_scope.

(** ** The dataset *)

(** One row of the Parquet file, restricted to the columns the program
    reads. Every Parquet column is nullable: [None] is SQL [NULL]. *)
Record Row := mkRow {
  hh_id : option Z;
  state : option string;
  district : option string;
  date_year : option Z;
  date_month : option Z;
  caste : option string;
  caste_category : option string
}.

Definition Table := list Row.

Definition DATA_PATH : string :=
  "https://storage.googleapis.com/jati-data/new_replication_panel.parquet".

(** ** Generic list helpers *)

Section Lists.
Context {A : Type}.
Variable eqb : A -> A -> bool.

Definition memb (x : A) (l : list A) : bool := existsb (eqb x) l.

(** The distinct values of a list, each at its first occurrence. *)
Fixpoint distinct (l : list A) : list A :=
  match l with
  | [] => []
  | x :: l' => x :: filter (fun y => negb (eqb x y)) (distinct l')
  end.

Fixpoint remove1 (x : A) (l : list A) : option (list A) :=
  match l with
  | [] => None
  | y :: l' =>
      if eqb x y then Some l'
      else match remove1 x l' with
           | Some r => Some (y :: r)
           | None => None
           end
  end.

(** Decides whether two lists hold the same elements with the same
    multiplicities. *)
Fixpoint permb (l1 l2 : list A) : bool :=
  match l1 with
  | [] => match l2 with [] => true | _ :: _ => false end
  | x :: l1' =>
      match remove1 x l2 with
      | Some l2' => permb l1' l2'
      | None => false
      end
  end.

Variable leb : A -> A -> bool.

Fixpoint sortedb (l : list A) : bool :=
  match l with
  | [] => true
  | x :: l' =>
      match l' with
      | [] => true
      | y :: _ => leb x y && sortedb l'
      end
  end.
End Lists.

Definition option_eqb {A : Type} (eqb : A -> A -> bool) (a b : option A) : bool :=
  match a, b with
  | Some x, Some y => eqb x y
  | None, None => true
  | _, _ => false
  end.

Definition sum_Z (l : list Z) : Z := fold_right Z.add 0 l.

(** ** SQL values and comparison *)

(** [col = literal] inside [WHERE]: a [NULL] column makes the comparison
    unknown, and [WHERE] keeps a row only when its condition is true. *)
Definition sql_eq_string (col : option string) (lit : string) : bool :=
  match col with
  | Some v => String.eqb v lit
  | None => false
  end.

Definition sql_eq_int (col : option Z) (lit : Z) : bool :=
  match col with
  | Some v => Z.eqb v lit
  | None => false
  end.

(** ** The aggregation query *)

(** The two values of [count_hh_id_clause]. *)
Inductive CountClause :=
| COUNT_hh_id
| COUNT_DISTINCT_hh_id.

(** One element of [where_clauses], by the Python value that the f-string
    pastes into the clause text. *)
Inductive Clause :=
| state_eq (s : string)
| date_year_eq (y : Z)
| date_month_eq (m : Z)
| district_eq (d : string).

(** The parts of the SQL text that depend on the arguments. *)
Record Query := mkQuery {
  q_path : string;
  count_hh_id_clause : CountClause;
  where_clauses : list Clause
}.

Definition count_clause_text (c : CountClause) : string :=
  match c with
  | COUNT_hh_id => "COUNT(hh_id)"
  | COUNT_DISTINCT_hh_id => "COUNT(DISTINCT hh_id)"
  end.

Definition sum_count_over_clause (c : CountClause) : string :=
  "SUM(" ++ count_clause_text c ++ ") OVER ()".

Definition int_text (z : Z) : string :=
  DecimalString.NilZero.string_of_int (Z.to_int z).

Definition clause_text (c : Clause) : string :=
  match c with
  | state_eq s => "state = '" ++ s ++ "'"
  | date_year_eq y => "date_year = " ++ int_text y
  | date_month_eq m => "date_month = " ++ int_text m
  | district_eq d => "district = '" ++ d ++ "'"
  end.

Definition where_str (q : Query) : string :=
  String.concat " AND " (map clause_text (where_clauses q)).

(** The strings are pasted between single quotes as they are, without
    escaping (lines 108, 139 and 151). Only for a string without an
    apostrophe is the quoted text the literal of that string. *)
Fixpoint lacks (c : ascii) (s : string) : bool :=
  match s with
  | EmptyString => true
  | String x s' => negb (Ascii.eqb x c) && lacks c s'
  end.

Definition quote_free (s : string) : bool := lacks "'" s.

Definition literal_quote_free (c : Clause) : bool :=
  match c with
  | state_eq s => quote_free s
  | district_eq d => quote_free d
  | date_year_eq _ => true
  | date_month_eq _ => true
  end.

Definition well_quoted (q : Query) : bool :=
  forallb literal_quote_free (where_clauses q).

Definition WHOLE_REGION_SENTINEL : string := "Entire State".

(** Python truth value of the [district] argument: [None] and the empty
    string are false. (A NaN, which pandas may put for a [NULL] district,
    is true, differs from the sentinel and is formatted as [nan]: in the
    f-strings it behaves as the string [nan].) *)
Definition truthy (district : option string) : bool :=
  match district with
  | Some d => negb (String.eqb d "")
  | None => false
  end.

(** Lines 138-153: the clause list and the counting clause. *)
Definition build_query (path state : string) (year month : Z)
    (view_entire_panel_flag : bool) (district : option string) : Query :=
  let where_clauses := [state_eq state] in
  let count_hh_id_clause :=
    if view_entire_panel_flag then COUNT_DISTINCT_hh_id else COUNT_hh_id in
  let where_clauses :=
    if negb view_entire_panel_flag
    then (where_clauses ++ [date_year_eq year] ++ [date_month_eq month])%list
    else where_clauses in
  let where_clauses :=
    match district with
    | Some d =>
        if truthy district && negb (String.eqb d WHOLE_REGION_SENTINEL)
        then (where_clauses ++ [district_eq d])%list
        else where_clauses
    | None => where_clauses
    end in
  mkQuery path count_hh_id_clause where_clauses.

(** ** Meaning of the query over a table *)

(** The truth of a clause on a row, for a clause whose literal is
    [literal_quote_free]: its text is then the comparison of the column
    with that literal. The text of a clause with an apostrophe in its
    string is some other condition, or does not parse; the statements
    below about the rows that a clause list keeps are made for
    [quote_free] values. *)
Definition holds (c : Clause) (r : Row) : bool :=
  match c with
  | state_eq s => sql_eq_string (state r) s
  | date_year_eq y => sql_eq_int (date_year r) y
  | date_month_eq m => sql_eq_int (date_month r) m
  | district_eq d => sql_eq_string (district r) d
  end.

(** [WHERE c1 AND ... AND cn]. *)
Definition WHERE (cs : list Clause) (t : Table) : Table :=
  filter (fun r => forallb (fun c => holds c r) cs) t.

(** The grouping key of [GROUP BY caste, caste_category]; two [NULL]s
    fall in the same group. *)
Definition Key := (option string * option string)%type.

Definition key_of (r : Row) : Key := (caste r, caste_category r).

Definition key_eqb (a b : Key) : bool :=
  option_eqb String.eqb (fst a) (fst b) && option_eqb String.eqb (snd a) (snd b).

Definition group (k : Key) (rows : Table) : Table :=
  filter (fun r => key_eqb k (key_of r)) rows.

Definition group_keys (rows : Table) : list Key :=
  distinct key_eqb (map key_of rows).

(** The non-[NULL] values of a column. *)
Definition non_null {A : Type} (col : Row -> option A) (rows : Table) : list A :=
  flat_map (fun r => match col r with Some v => [v] | None => [] end) rows.

(** The identifiers that the aggregate counts over the rows of a group:
    [COUNT(hh_id)] takes every non-[NULL] one, [COUNT(DISTINCT hh_id)]
    each distinct non-[NULL] one once. *)
Definition counted_ids (c : CountClause) (rows : Table) : list Z :=
  match c with
  | COUNT_hh_id => non_null hh_id rows
  | COUNT_DISTINCT_hh_id => distinct Z.eqb (non_null hh_id rows)
  end.

Definition eval_count (c : CountClause) (rows : Table) : Z :=
  Z.of_nat (List.length (counted_ids c rows)).

(** [ROUND(CAST(num AS DOUBLE) * 100.0 / den, 2)] as a relation between
    the two integers and the value of the column, held as a number of
    hundredths ([Some 6667] is 66.67) or as no number ([None]: the [NULL]
    or NaN of a zero denominator).

    The engine divides and rounds in binary DOUBLE. The quotient and its
    product by 100 each carry a relative error of at most 2^-53, so the
    value that is rounded to an integer number of hundredths lies within
    10^-11 of the exact ratio 10000 * num / den; near a half it may fall on
    either side (23 of 4000 gives 0.57, the exact ratio being 0.575). The
    relation admits every hundredth within 0.501 of the exact ratio, which
    covers the rounding of the DOUBLE whichever side it falls. *)
Definition is_percentage (num den : Z) (p : option Z) : bool :=
  match p with
  | Some h =>
      (0 <? den) && (Z.abs (1000 * (den * h) - 1000 * (10000 * num)) <=? 501 * den)
  | None => den =? 0
  end.

(** A group with its count. *)
Record Aggregate := mkAggregate {
  a_caste : option string;
  a_caste_category : option string;
  a_count : Z
}.

(** A row of [result_df]. *)
Record RankedRow := mkRankedRow {
  r_caste : option string;
  r_caste_category : option string;
  Households_Count : Z;
  Percentage : option Z;
  Rank : Z
}.

Definition DataFrame := list RankedRow.

Definition aggregate_of (r : RankedRow) : Aggregate :=
  mkAggregate (r_caste r) (r_caste_category r) (Households_Count r).

Definition group_count (q : Query) (t : Table) (k : Key) : Z :=
  eval_count (count_hh_id_clause q) (group k (WHERE (where_clauses q) t)).

(** [SUM(count) OVER ()]: the window is the whole grouped result. *)
Definition window_total (q : Query) (t : Table) : Z :=
  sum_Z (map (group_count q t) (group_keys (WHERE (where_clauses q) t))).

(** The groups with their counts, one per key. *)
Definition aggregates (q : Query) (t : Table) : list Aggregate :=
  map (fun k => mkAggregate (fst k) (snd k) (group_count q t k))
      (group_keys (WHERE (where_clauses q) t)).

Definition aggregate_eqb (a b : Aggregate) : bool :=
  option_eqb String.eqb (a_caste a) (a_caste b)
  && option_eqb String.eqb (a_caste_category a) (a_caste_category b)
  && (a_count a =? a_count b).

(** [ORDER BY "Households Count" DESC] on two neighbours. *)
Definition count_geb (a b : RankedRow) : bool :=
  Households_Count b <=? Households_Count a.

(** [ROW_NUMBER() OVER (ORDER BY count DESC)] on two rows: the row with
    the strictly larger count has the smaller number. *)
Definition rank_respects_count (a b : RankedRow) : bool :=
  implb (Households_Count b <? Households_Count a) (Rank a <? Rank b).

Definition row_numbers (n : nat) : list Z := map Z.of_nat (seq 1 n).

(** What SQL fixes about the frame that the query returns over table [t],
    when the engine answers it. The rows are the groups with their counts,
    in some order; each percentage is a rounding of the row's share of the
    window total; the row numbers are 1..n handed out along some ordering
    by decreasing count; the rows come in some ordering by decreasing
    count. Both [ORDER BY] clauses of the statement (lines 161 and 169)
    name the count and nothing else. *)
Definition is_result_of (t : Table) (q : Query) (df : DataFrame) : bool :=
  permb aggregate_eqb (map aggregate_of df) (aggregates q t)
  && forallb (fun r => is_percentage (Households_Count r) (window_total q t)
                         (Percentage r)) df
  && permb Z.eqb (map Rank df) (row_numbers (List.length df))
  && forallb (fun a => forallb (rank_respects_count a) df) df
  && sortedb count_geb df.

(** ** The connection *)

(** The outcome of [con.execute(sql).fetchdf()]. *)
Inductive Fetch (A : Type) :=
| Raises (e : string)
| Fetched (a : A).
Arguments Raises {A} e.
Arguments Fetched {A} a.

(** The global [con], by the two statements that the two cached functions
    send through it. *)
Record Connection := mkConnection {
  fetch_districts : string -> string -> Fetch (list (option string));
  fetch_distribution : Query -> Fetch DataFrame
}.

(** A connection on which every statement raises [e]. *)
Definition raising (e : string) : Connection :=
  mkConnection (fun _ _ => Raises e) (fun _ => Raises e).

(** A connection that answers the district statement with [districts] and
    the aggregation query with [df]. *)
Definition returning (districts : list (option string)) (df : DataFrame) : Connection :=
  mkConnection (fun _ _ => Fetched districts) (fun _ => Fetched df).

(** [con] answers query [q] with a frame that is a result of [q] over [t]. *)
Definition answers (con : Connection) (t : Table) (q : Query) : bool :=
  match fetch_distribution con q with
  | Fetched df => is_result_of t q df
  | Raises _ => false
  end.

(** ** DuckDB on the statements as written *)

(** An argument of a table function call. *)
Inductive Argument :=
| VARCHAR (s : string)
| STRUCT (fields : list (string * bool)).

(** The [FROM] clause of every statement of the program is
    [read_parquet('{path}', {{force_download: true}})]: in the f-string the
    doubled braces are single braces, so the call has the path and, as a
    second positional argument, a struct literal. *)
Definition read_parquet_arguments (path : string) : list Argument :=
  [VARCHAR path; STRUCT [("force_download", true)]].

(** [read_parquet] takes the file as its one positional argument; a call
    with a second positional argument matches none of its signatures. *)
Definition read_parquet_binds (arguments : list Argument) : bool :=
  match arguments with
  | [VARCHAR _] => true
  | _ => false
  end.

(** DuckDB behind [con]: a statement whose table function call does not
    bind raises the binder's error, before any file is opened; [scan] is
    what the engine does with a statement that binds, and
    [binder_error] the text of the exception. *)
Definition duckdb (binder_error : string) (scan : Connection) : Connection :=
  mkConnection
    (fun path state_lit =>
       if read_parquet_binds (read_parquet_arguments path)
       then fetch_districts scan path state_lit
       else Raises binder_error)
    (fun q =>
       if read_parquet_binds (read_parquet_arguments (q_path q))
       then fetch_distribution scan q
       else Raises binder_error).

(** ** The Python functions *)

(** What a call does besides returning: statements sent to the engine and
    messages shown by [st.error]. *)
Inductive event :=
| ExecutedDistricts (path state_lit : string)
| Executed (q : Query)
| st_error (msg : string).

(** Lines 100-117. An element of the Python list is a string, or the
    missing value that pandas puts for a [NULL] district ([None] here,
    whether pandas makes it [None] or NaN): the function only compares the
    elements with the sentinel, and a missing value is not equal to it. *)
Definition get_districts_for_state (con : Connection) (path state : string)
    : list (option string) * list event :=
  match fetch_districts con path state with
  | Fetched districts =>
      let districts :=
        if negb (memb (option_eqb String.eqb) (Some WHOLE_REGION_SENTINEL) districts)
        then Some WHOLE_REGION_SENTINEL :: districts
        else districts in
      (districts, [ExecutedDistricts path state])
  | Raises e =>
      ([Some WHOLE_REGION_SENTINEL],
       [ExecutedDistricts path state;
        st_error ("Error loading districts for '" ++ state ++ "': " ++ e)])
  end.

(** Lines 131-181. The cache decorator only replays the value of an
    earlier call with the same arguments, and is left out. *)
Definition get_caste_distribution_duckdb_optimized (con : Connection)
    (path state : string) (year month : Z) (view_entire_panel_flag : bool)
    (district : option string) : (DataFrame * Z) * list event :=
  let query := build_query path state year month view_entire_panel_flag district in
  match fetch_distribution con query with
  | Fetched result_df =>
      let total_households_in_state :=
        match result_df with
        | [] => 0
        | _ :: _ => sum_Z (map Households_Count result_df)
        end in
      ((result_df, total_households_in_state), [Executed query])
  | Raises e =>
      (([], 0),
       [Executed query;
        st_error ("Error querying data with DuckDB (Parquet): " ++ e)])
  end.

Definition Outcome := ((DataFrame * Z) * list event)%type.

Definition rows_of (res : Outcome) : DataFrame := fst (fst res).
Definition total_of (res : Outcome) : Z := snd (fst res).
Definition events_of (res : Outcome) : list event := snd res.

(** ** The specification's wording, for comparison *)

(** The predicate conjunction as the specification words it: the
    sub-region clause is present whenever the sub-region differs from the
    sentinel. *)
Definition spec_conjunction (region subRegion : string) (year month : Z)
    (panelMode : bool) : list Clause :=
  ([state_eq region]
   ++ (if negb panelMode then [date_year_eq year; date_month_eq month] else [])
   ++ (if negb (String.eqb subRegion WHOLE_REGION_SENTINEL)
       then [district_eq subRegion] else []))%list.

(** A row that carries a household identifier. *)
Definition has_id (r : Row) : bool :=
  match hh_id r with
  | Some _ => true
  | None => false
  end.

(** The weight of a row in [COUNT(hh_id)]. *)
Definition id_weight (r : Row) : Z := if has_id r then 1 else 0.

(** ** Small datasets and frames *)

Definition household (h : option Z) (d : string) (y m : Z) (c k : string) : Row :=
  mkRow h (Some "A") (Some d) (Some y) (Some m) (Some c) (Some k).

(** Three households of region A observed in January 2020. *)
Definition period_table : Table :=
  [household (Some 1) "X" 2020 1 "C1" "K1";
   household (Some 2) "X" 2020 1 "C1" "K1";
   household (Some 3) "X" 2020 1 "C2" "K2"].

(** The frame of the period scenario: counts 2 and 1, 66.67 and 33.33. *)
Definition period_frame : DataFrame :=
  [mkRankedRow (Some "C1") (Some "K1") 2 (Some 6667) 1;
   mkRankedRow (Some "C2") (Some "K2") 1 (Some 3333) 2].

(** The same table, with household 1 observed again in January 2021. *)
Definition panel_table : Table :=
  (period_table ++ [household (Some 1) "X" 2021 1 "C1" "K1"])%list.

(** A table in which one row of group (C1, K1) has no household identifier. *)
Definition null_id_table : Table :=
  [household (Some 1) "X" 2020 1 "C1" "K1";
   household None "X" 2020 1 "C1" "K1"].


(** Household 1 is observed under two castes. *)
Definition caste_change_table : Table :=
  [household (Some 1) "X" 2020 1 "C1" "K1";
   household (Some 1) "X" 2021 1 "C2" "K2"].

(** ** The metadata queries *)

(** The global [con], by the four statements of
    [load_and_prepare_metadata]. *)
Record MetadataConnection := mkMetadataConnection {
  fetch_states : string -> Fetch (list (option string));
  fetch_years : string -> Fetch (list (option Z));
  fetch_months : string -> Fetch (list (option Z));
  fetch_mode_state : string -> Fetch (list (option string))
}.

(** A connection that answers the four statements with the given lists. *)
Definition returning_metadata (states : list (option string))
    (years months : list (option Z)) (mode : list (option string))
    : MetadataConnection :=
  mkMetadataConnection (fun _ => Fetched states) (fun _ => Fetched years)
    (fun _ => Fetched months) (fun _ => Fetched mode).


(** A script run either stops at [st.stop()], after the message given to
    [st.error], or goes on with a value. *)
Inductive Script (A : Type) :=
| Stops (msg : string)
| Goes (a : A).
Arguments Stops {A} msg.
Arguments Goes {A} a.

(** The four values that [load_and_prepare_metadata] returns; the most
    common state is a state, or Python's [None]. *)
Record Metadata := mkMetadata {
  m_states : list (option string);
  m_years : list (option Z);
  m_months : list (option Z);
  m_most_common_state : option string
}.

Definition metadata_error (e : string) : string :=
  "Error preparing metadata from Parquet: " ++ e
  ++ ". Please ensure the Dropbox link is a direct download link and publicly accessible. 'force_download=true' has been added to queries.".

(** [states[0] if states else None]. *)
Definition first_or_None (states : list (option string)) : option string :=
  match states with
  | s :: _ => s
  | [] => None
  end.

(** Lines 26-50. *)
Definition load_and_prepare_metadata (con : MetadataConnection) (path : string)
    : Script Metadata :=
  match fetch_states con path with
  | Raises e => Stops (metadata_error e)
  | Fetched states =>
      match fetch_years con path with
      | Raises e => Stops (metadata_error e)
      | Fetched years =>
          match fetch_months con path with
          | Raises e => Stops (metadata_error e)
          | Fetched months =>
              let most_common_state :=
                match fetch_mode_state con path with
                | Fetched (s :: _) => s
                | Fetched [] => first_or_None states
                | Raises _ => first_or_None states
                end in
              Goes (mkMetadata states years months most_common_state)
          end
      end
  end.

(** Lines 53-58: the script stops when a dropdown would have no option. *)
Definition startup (con : MetadataConnection) (path : string) : Script Metadata :=
  match load_and_prepare_metadata con path with
  | Stops msg => Stops msg
  | Goes m =>
      match m_states m, m_years m, m_months m with
      | _ :: _, _ :: _, _ :: _ => Goes m
      | _, _, _ =>
          Stops "Could not load unique values for filters. Please ensure your Parquet file contains data and the path is correct."
      end
  end.

(** ** The dropdowns *)

(** [l.index(x)]: the first position of [x], or nothing where Python
    raises [ValueError]. *)
Fixpoint index {A : Type} (eqb : A -> A -> bool) (x : A) (l : list A) : option nat :=
  match l with
  | [] => None
  | y :: l' =>
      if eqb y x then Some 0%nat
      else match index eqb x l' with
           | Some i => Some (S i)
           | None => None
           end
  end.

(** [l.index(x) if x in l else otherwise]. *)
Definition index_if_in {A : Type} (eqb : A -> A -> bool) (x : A) (l : list A)
    (otherwise : nat) : nat :=
  if memb eqb x l
  then match index eqb x l with Some i => i | None => 0%nat end
  else otherwise.

(** [len(l) - 1 if l else 0]. *)
Definition last_index {A : Type} (l : list A) : nat :=
  match l with
  | [] => 0%nat
  | _ :: _ => (List.length l - 1)%nat
  end.

(** The [index] arguments of the three dropdowns (lines 75, 85 and 93). *)
Definition state_index (m : Metadata) : nat :=
  index_if_in (option_eqb String.eqb) (m_most_common_state m) (m_states m) 0%nat.

Definition year_index (m : Metadata) : nat := last_index (m_years m).

Definition month_index (m : Metadata) : nat :=
  index_if_in (option_eqb Z.eqb) (Some 1) (m_months m) (last_index (m_months m)).

(** The value of [st.selectbox(label, options, index)] before the user
    touches it. *)
Definition selectbox {A : Type} (options : list A) (i : nat) : option A :=
  nth_error options i.

(** ** The page *)

Definition MONTH_NAMES : list (Z * string) :=
  [(1, "January"); (2, "February"); (3, "March"); (4, "April"); (5, "May");
   (6, "June"); (7, "July"); (8, "August"); (9, "September"); (10, "October");
   (11, "November"); (12, "December")].

(** [d.get(k, default)]. *)
Fixpoint dict_get (d : list (Z * string)) (k : Z) (default : string) : string :=
  match d with
  | [] => default
  | (k', v) :: d' => if k' =? k then v else dict_get d' k default
  end.

(** [MONTH_NAMES.get(x, str(x))]: the month dropdown's [format_func]. *)
Definition month_label (x : Z) : string := dict_get MONTH_NAMES x (int_text x).

(** Lines 192-194. *)
Definition location_text (selected_state : string) (selected_district : option string)
    : string :=
  let location_text := "in " ++ selected_state in
  match selected_district with
  | Some d =>
      if truthy selected_district && negb (String.eqb d WHOLE_REGION_SENTINEL)
      then "in " ++ d ++ ", " ++ selected_state
      else location_text
  | None => location_text
  end.

(** Lines 196-200. *)
Definition time_text (view_entire_panel : bool) (selected_year selected_month : Z)
    : string :=
  if view_entire_panel then "across the entire panel"
  else "for " ++ month_label selected_month ++ "/" ++ int_text selected_year.

(** What lines 189-240 put on the page. The info box is kept by the fields
    that its f-string formats, not by the formatted text. *)
Inductive element :=
| st_warning (msg : string)
| st_header (text : string)
| st_subheader (text : string)
| st_markdown (text : string)
| st_info (dominant_jati_info : RankedRow) (location time : string)
| st_dataframe (ranked_jatis_display : DataFrame).

Definition display (ranked_jatis : DataFrame) (total_households_in_state : Z)
    (selected_state : string) (selected_district : option string)
    (view_entire_panel : bool) (selected_year selected_month : Z) : list element :=
  match ranked_jatis with
  | [] => [st_warning "No data found for the selected filters. Please adjust your selections."]
  | _ :: _ =>
      let location_text := location_text selected_state selected_district in
      let time_text := time_text view_entire_panel selected_year selected_month in
      [st_header ("Data " ++ location_text ++ " " ++ time_text);
       st_subheader ("Total Households " ++ location_text ++ " " ++ time_text ++ ": "
                     ++ int_text total_households_in_state);
       st_markdown "---";
       st_subheader ("Dominant Jati " ++ location_text ++ " " ++ time_text);
       match ranked_jatis with
       | dominant_jati_info :: _ => st_info dominant_jati_info location_text time_text
       | [] => st_warning "Could not determine dominant Jati as no caste data is available for this period."
       end;
       st_markdown "---";
       st_subheader ("Relative Rankings of Other Jatis " ++ location_text ++ " " ++ time_text);
       st_markdown ("Here is a detailed breakdown of all jatis " ++ location_text ++ " "
                    ++ time_text ++ ":");
       st_dataframe ranked_jatis;
       st_markdown "---";
       st_markdown "Data provided by the Culture and Debt Project (CPHS)."]
  end.

(** Lines 184-240: the query for the current selection, then the page. *)
Definition show_distribution (con : Connection) (selected_state : string)
    (selected_year selected_month : Z) (view_entire_panel : bool)
    (selected_district : option string) : list event * list element :=
  let res := get_caste_distribution_duckdb_optimized con DATA_PATH selected_state
               selected_year selected_month view_entire_panel selected_district in
  (events_of res,
   display (rows_of res) (total_of res) selected_state selected_district
     view_entire_panel selected_year selected_month).

(** * Properties *)

(** ** Lists *)

Section ListFacts.
Context {A : Type}.
Variable eqb : A -> A -> bool.
Hypothesis eqb_eq : forall x y, eqb x y = true <-> x = y.

Lemma memb_In (x : A) (l : list A) : memb eqb x l = true <-> In x l.
Proof.
  unfold memb. rewrite existsb_exists. split.
  - intros [y [Hy E]]. apply eqb_eq in E. now subst.
  - intros H. exists x. split; [exact H | now apply eqb_eq].
Qed.

Lemma distinct_In (x : A) (l : list A) : In x (distinct eqb l) <-> In x l.
Proof.
  induction l as [|a l IH]; simpl; [tauto|].
  rewrite filter_In, IH. split.
  - intros [H | [H _]]; auto.
  - intros [H | H]; auto.
    destruct (eqb a x) eqn:E.
    + left. now apply eqb_eq.
    + right. split; [exact H | reflexivity].
Qed.

Lemma distinct_NoDup (l : list A) : NoDup (distinct eqb l).
Proof.
  induction l as [|a l IH]; simpl; constructor.
  - rewrite filter_In. intros [_ H]. cbv beta in H.
    assert (E : eqb a a = true) by now apply eqb_eq.
    now rewrite E in H.
  - now apply NoDup_filter.
Qed.

Lemma distinct_nil (l : list A) : distinct eqb l = [] <-> l = [].
Proof. destruct l; simpl; split; congruence. Qed.

Lemma remove1_Permutation (x : A) (l r : list A) :
  remove1 eqb x l = Some r -> Permutation l (x :: r).
Proof.
  revert r. induction l as [|y l IH]; simpl; intros r H; [discriminate|].
  destruct (eqb x y) eqn:E.
  - apply eqb_eq in E. inversion H. subst. reflexivity.
  - destruct (remove1 eqb x l) as [r'|]; [|discriminate].
    inversion H. subst.
    rewrite (IH r' eq_refl). apply perm_swap.
Qed.

Lemma permb_Permutation (l1 l2 : list A) :
  permb eqb l1 l2 = true -> Permutation l1 l2.
Proof.
  revert l2. induction l1 as [|x l1 IH]; simpl; intros l2 H.
  - destruct l2; [constructor | discriminate].
  - destruct (remove1 eqb x l2) as [r|] eqn:E; [|discriminate].
    apply remove1_Permutation in E. rewrite E.
    constructor. now apply IH.
Qed.

Variable leb : A -> A -> bool.
Hypothesis leb_trans : forall x y z, leb x y = true -> leb y z = true -> leb x z = true.

Lemma sortedb_StronglySorted (l : list A) :
  sortedb leb l = true -> StronglySorted (fun a b => leb a b = true) l.
Proof.
  induction l as [|x l IH]; simpl; intros H; constructor.
  - apply IH. destruct l; [reflexivity|].
    now apply andb_true_iff in H.
  - destruct l as [|y l]; [constructor|].
    apply andb_true_iff in H. destruct H as [Hxy Hs].
    specialize (IH Hs). inversion IH as [|? ? _ Hall]; subst.
    constructor; [exact Hxy|].
    eapply Forall_impl; [|exact Hall].
    intros z Hz. now apply (leb_trans x y z).
Qed.
End ListFacts.

Lemma sum_Z_app (l1 l2 : list Z) : sum_Z (l1 ++ l2) = sum_Z l1 + sum_Z l2.
Proof. induction l1; simpl; lia. Qed.

Lemma sum_Z_Permutation (l1 l2 : list Z) :
  Permutation l1 l2 -> sum_Z l1 = sum_Z l2.
Proof. induction 1; simpl; lia. Qed.

Lemma option_eqb_eq {A : Type} (eqb : A -> A -> bool) :
  (forall x y, eqb x y = true <-> x = y) ->
  forall a b, option_eqb eqb a b = true <-> a = b.
Proof.
  intros H [x|] [y|]; simpl; try (split; congruence).
  rewrite H. split; congruence.
Qed.

Lemma key_eqb_eq (a b : Key) : key_eqb a b = true <-> a = b.
Proof.
  destruct a as [a1 a2], b as [b1 b2]. unfold key_eqb. simpl.
  rewrite andb_true_iff, !(option_eqb_eq _ String.eqb_eq).
  split; [intros [-> ->]; reflexivity | intros H; inversion H; auto].
Qed.

Lemma aggregate_eqb_eq (a b : Aggregate) : aggregate_eqb a b = true <-> a = b.
Proof.
  destruct a, b. unfold aggregate_eqb. simpl.
  rewrite !andb_true_iff, !(option_eqb_eq _ String.eqb_eq), Z.eqb_eq.
  split; [intros [[-> ->] ->]; reflexivity | intros H; inversion H; auto].
Qed.

(** ** Results of the query *)

Lemma count_geb_trans (a b c : RankedRow) :
  count_geb a b = true -> count_geb b c = true -> count_geb a c = true.
Proof. unfold count_geb. rewrite !Z.leb_le. lia. Qed.

Lemma is_result_of_inv (t : Table) (q : Query) (df : DataFrame) :
  is_result_of t q df = true ->
  Permutation (map aggregate_of df) (aggregates q t)
  /\ Permutation (map Rank df) (row_numbers (List.length df))
  /\ (forall a b, In a df -> In b df ->
        Households_Count b < Households_Count a -> Rank a < Rank b)
  /\ StronglySorted (fun a b => Households_Count b <= Households_Count a) df.
Proof.
  unfold is_result_of. rewrite !andb_true_iff.
  intros [[[[Hagg _] Hrank] Hresp] Hsort]. repeat split.
  - apply (permb_Permutation _ aggregate_eqb_eq). exact Hagg.
  - apply (permb_Permutation _ Z.eqb_eq). exact Hrank.
  - intros a b Ha Hb Hlt.
    rewrite forallb_forall in Hresp. specialize (Hresp a Ha).
    rewrite forallb_forall in Hresp. specialize (Hresp b Hb).
    unfold rank_respects_count in Hresp.
    apply Z.ltb_lt in Hlt. rewrite Hlt in Hresp. simpl in Hresp.
    now apply Z.ltb_lt.
  - apply (sortedb_StronglySorted _ count_geb_trans) in Hsort.
    clear Hagg Hrank Hresp.
    induction Hsort as [|x l _ IH Hall]; [constructor|].
    constructor; [exact IH|].
    eapply Forall_impl; [|exact Hall].
    intros y Hy. unfold count_geb in Hy. now apply Z.leb_le.
Qed.

Lemma is_result_of_percentage (t : Table) (q : Query) (df : DataFrame) (row : RankedRow) :
  is_result_of t q df = true ->
  In row df ->
  is_percentage (Households_Count row) (window_total q t) (Percentage row) = true.
Proof.
  unfold is_result_of. rewrite !andb_true_iff.
  intros [[[[_ Hp] _] _] _] Hin. rewrite forallb_forall in Hp. now apply Hp.
Qed.

Lemma aggregates_counts (q : Query) (t : Table) :
  sum_Z (map a_count (aggregates q t)) = window_total q t.
Proof.
  unfold aggregates, window_total. rewrite map_map. reflexivity.
Qed.

Lemma result_counts (t : Table) (q : Query) (df : DataFrame) :
  is_result_of t q df = true ->
  sum_Z (map Households_Count df) = window_total q t.
Proof.
  intros H. apply is_result_of_inv in H. destruct H as [Hagg _].
  rewrite <- aggregates_counts.
  replace (map Households_Count df) with (map a_count (map aggregate_of df))
    by (rewrite map_map; reflexivity).
  apply sum_Z_Permutation. now apply Permutation_map.
Qed.

Lemma answers_inv (con : Connection) (t : Table) (q : Query) :
  answers con t q = true ->
  exists df, fetch_distribution con q = Fetched df /\ is_result_of t q df = true.
Proof.
  unfold answers. destruct (fetch_distribution con q) as [e|df]; [discriminate|].
  intros H. now exists df.
Qed.

(** The frame and the total that the function returns when the engine
    answers with [df]. *)
Lemma distribution_fetched (con : Connection) (path state_lit : string)
    (year month : Z) (flag : bool) (district : option string) (df : DataFrame) :
  fetch_distribution con (build_query path state_lit year month flag district) = Fetched df ->
  get_caste_distribution_duckdb_optimized con path state_lit year month flag district
  = ((df, sum_Z (map Households_Count df)),
     [Executed (build_query path state_lit year month flag district)]).
Proof.
  intros H. unfold get_caste_distribution_duckdb_optimized. rewrite H.
  destruct df; reflexivity.
Qed.

(** ** The total *)

(** C1: whatever the arguments and whatever the engine answers (a frame, an
    empty frame or an exception), the total that the function returns is
    the sum of the "Households Count" column of the frame it returns. *)
Theorem total_is_sum_of_returned_counts (con : Connection) (path state_lit : string)
    (year month : Z) (flag : bool) (district : option string) :
  let res :=
    get_caste_distribution_duckdb_optimized con path state_lit year month flag district in
  total_of res = sum_Z (map Households_Count (rows_of res)).
Proof.
  unfold get_caste_distribution_duckdb_optimized, total_of, rows_of. simpl.
  destruct (fetch_distribution con _) as [e|df]; simpl; [reflexivity|].
  destruct df; reflexivity.
Qed.

(** The period scenario: [period_frame] is a result of the period query
    over [period_table], and with it the function returns the total 3. *)
Example period_scenario :
  let q := build_query DATA_PATH "A" 2020 1 false (Some WHOLE_REGION_SENTINEL) in
  is_result_of period_table q period_frame = true
  /\ fst (get_caste_distribution_duckdb_optimized (returning [] period_frame)
            DATA_PATH "A" 2020 1 false (Some WHOLE_REGION_SENTINEL))
     = (period_frame, 3).
Proof. split; reflexivity. Qed.

(** In panel mode four rows pass the filter of [panel_table]; the frame of
    the panel query is again [period_frame], with the total 3: household 1
    is counted once. *)
Example panel_total_counts_households_once :
  let q := build_query DATA_PATH "A" 2020 1 true (Some WHOLE_REGION_SENTINEL) in
  List.length (WHERE (where_clauses q) panel_table) = 4%nat
  /\ is_result_of panel_table q period_frame = true
  /\ window_total q panel_table = 3.
Proof. repeat split. Qed.

(** The text of the [WHERE] clause for a district of region A. *)
Example where_str_of_period_query :
  where_str (build_query DATA_PATH "A" 2020 1 false (Some "X"))
  = "state = 'A' AND date_year = 2020 AND date_month = 1 AND district = 'X'".
Proof. reflexivity. Qed.

(** A state with an apostrophe gives the text of another query: here the
    text that also filters by district X. *)
Example apostrophe_gives_another_text :
  where_str (build_query DATA_PATH "A' AND district = 'X" 2020 1 true None)
  = where_str (build_query DATA_PATH "A" 2020 1 true (Some "X"))
  /\ quote_free "A' AND district = 'X" = false.
Proof. split; reflexivity. Qed.

(** ** The filter *)

Lemma WHERE_In (cs : list Clause) (t : Table) (r : Row) :
  In r (WHERE cs t) <-> In r t /\ forall c, In c cs -> holds c r = true.
Proof. unfold WHERE. rewrite filter_In, forallb_forall. reflexivity. Qed.

Lemma sql_eq_string_true (col : option string) (lit : string) :
  sql_eq_string col lit = true <-> col = Some lit.
Proof.
  destruct col as [v|]; simpl; [|split; discriminate].
  rewrite String.eqb_eq. split; congruence.
Qed.

Lemma sql_eq_int_true (col : option Z) (lit : Z) :
  sql_eq_int col lit = true <-> col = Some lit.
Proof.
  destruct col as [v|]; simpl; [|split; discriminate].
  rewrite Z.eqb_eq. split; congruence.
Qed.

Lemma build_query_clauses (path state_lit : string) (year month : Z)
    (flag : bool) (selected_district : option string) :
  where_clauses (build_query path state_lit year month flag selected_district)
  = ([state_eq state_lit]
     ++ (if flag then [] else [date_year_eq year; date_month_eq month])
     ++ match selected_district with
        | Some d =>
            if String.eqb d "" || String.eqb d WHOLE_REGION_SENTINEL
            then [] else [district_eq d]
        | None => []
        end)%list.
Proof.
  unfold build_query, truthy.
  destruct flag, selected_district as [d|]; simpl; try reflexivity;
    destruct (String.eqb d ""), (String.eqb d WHOLE_REGION_SENTINEL);
    reflexivity.
Qed.

(** C2, as the code has it: the clause list is the region clause, then the
    year and month clauses exactly when the panel flag is off, then the
    district clause exactly when the district is a non-empty string other
    than the sentinel. For a region and a district without an apostrophe
    the clauses are the equalities they name: a row passes the filter
    exactly when it satisfies each of them. *)
Theorem where_clauses_of_query (path state_lit : string) (year month : Z)
    (flag : bool) (selected_district : option string) :
  let q := build_query path state_lit year month flag selected_district in
  where_clauses q
  = ([state_eq state_lit]
     ++ (if flag then [] else [date_year_eq year; date_month_eq month])
     ++ match selected_district with
        | Some d =>
            if String.eqb d "" || String.eqb d WHOLE_REGION_SENTINEL
            then [] else [district_eq d]
        | None => []
        end)%list
  /\ (quote_free state_lit = true ->
      (forall d, selected_district = Some d -> quote_free d = true) ->
      well_quoted q = true
      /\ forall (t : Table) (r : Row),
           In r (WHERE (where_clauses q) t) <->
           In r t
           /\ state r = Some state_lit
           /\ (flag = false -> date_year r = Some year /\ date_month r = Some month)
           /\ (forall d, selected_district = Some d -> d <> "" ->
                 d <> WHOLE_REGION_SENTINEL -> district r = Some d)).
Proof.
  pose proof (build_query_clauses path state_lit year month flag selected_district)
    as Hcl.
  cbv zeta. split; [exact Hcl|].
  intros Hqs Hqd. split.
  { unfold well_quoted. rewrite Hcl. rewrite !forallb_app. simpl. rewrite Hqs. simpl.
    apply andb_true_iff. split; [now destruct flag|].
    destruct selected_district as [d|]; [|reflexivity].
    destruct (String.eqb d "" || String.eqb d WHOLE_REGION_SENTINEL); [reflexivity|].
    simpl. now rewrite (Hqd d eq_refl). }
  intros t r. rewrite Hcl, WHERE_In. split.
  - intros [Ht Hc]. split; [exact Ht|]. split; [|split].
    + apply sql_eq_string_true. apply (Hc (state_eq state_lit)). now left.
    + intros ->. split.
      * apply sql_eq_int_true. apply (Hc (date_year_eq year)). simpl. auto.
      * apply sql_eq_int_true. apply (Hc (date_month_eq month)). simpl. auto.
    + intros d -> Hne Hns.
      apply String.eqb_neq in Hne, Hns.
      apply sql_eq_string_true. apply (Hc (district_eq d)).
      rewrite Hne, Hns. apply in_or_app. right. apply in_or_app. right. now left.
  - intros [Ht [Hs [Hym Hd]]]. split; [exact Ht|].
    intros c Hc. apply in_app_or in Hc. destruct Hc as [Hc|Hc].
    + destruct Hc as [<-|[]]. now apply sql_eq_string_true.
    + apply in_app_or in Hc. destruct Hc as [Hc|Hc].
      * destruct flag; [destruct Hc|]. destruct (Hym eq_refl) as [Hy Hm].
        destruct Hc as [<-|[<-|[]]]; now apply sql_eq_int_true.
      * destruct selected_district as [d|]; [|destruct Hc].
        destruct (String.eqb d "") eqn:E1; [destruct Hc|].
        destruct (String.eqb d WHOLE_REGION_SENTINEL) eqn:E2; [destruct Hc|].
        destruct Hc as [<-|[]]. apply sql_eq_string_true.
        apply String.eqb_neq in E1, E2. now apply Hd.
Qed.

(** C2 as worded fails for the empty district: it differs from the
    sentinel, yet the code adds no district clause, and a row of another
    district passes the filter. *)
Lemma empty_district_adds_no_clause :
  let q := build_query DATA_PATH "A" 2020 1 false (Some "") in
  let r := household (Some 1) "X" 2020 1 "C1" "K1" in
  where_clauses q = [state_eq "A"; date_year_eq 2020; date_month_eq 1]
  /\ spec_conjunction "A" "" 2020 1 false
     = [state_eq "A"; date_year_eq 2020; date_month_eq 1; district_eq ""]
  /\ WHERE (where_clauses q) [r] = [r]
  /\ WHERE (spec_conjunction "A" "" 2020 1 false) [r] = [].
Proof. repeat split. Qed.

(** For a non-empty district the code's clause list is the one the
    specification words. *)
Lemma where_clauses_agree_with_spec (path state_lit d : string) (year month : Z)
    (flag : bool) :
  d <> "" ->
  where_clauses (build_query path state_lit year month flag (Some d))
  = spec_conjunction state_lit d year month flag.
Proof.
  intros Hd. apply String.eqb_neq in Hd.
  unfold build_query, spec_conjunction, truthy. rewrite Hd.
  destruct flag, (String.eqb d WHOLE_REGION_SENTINEL); reflexivity.
Qed.

(** ** Panel mode *)

(** C8: with the panel flag on, the year and the month reach neither the
    query nor the result: two calls that differ only in them send the same
    query and return the same frame, total and messages. *)
Theorem panel_mode_ignores_year_and_month (con : Connection) (path state_lit : string)
    (year1 month1 year2 month2 : Z) (selected_district : option string) :
  build_query path state_lit year1 month1 true selected_district
  = build_query path state_lit year2 month2 true selected_district
  /\ get_caste_distribution_duckdb_optimized con path state_lit year1 month1 true
       selected_district
     = get_caste_distribution_duckdb_optimized con path state_lit year2 month2 true
         selected_district.
Proof.
  assert (H : build_query path state_lit year1 month1 true selected_district
              = build_query path state_lit year2 month2 true selected_district)
    by reflexivity.
  split; [exact H|].
  unfold get_caste_distribution_duckdb_optimized. cbv zeta. now rewrite H.
Qed.

(** ** Counting households *)

(** Every row of a result carries the count of its own group, and its
    group is not empty. *)
Lemma result_row_count (t : Table) (q : Query) (df : DataFrame) (row : RankedRow) :
  is_result_of t q df = true ->
  In row df ->
  In (r_caste row, r_caste_category row) (group_keys (WHERE (where_clauses q) t))
  /\ Households_Count row = group_count q t (r_caste row, r_caste_category row).
Proof.
  intros H Hin. apply is_result_of_inv in H. destruct H as [Hagg _].
  assert (Ha : In (aggregate_of row) (aggregates q t)).
  { eapply Permutation_in; [exact Hagg|]. now apply in_map. }
  unfold aggregates in Ha. apply in_map_iff in Ha.
  destruct Ha as [[k1 k2] [E Hk]]. destruct row as [c k n p rk].
  unfold aggregate_of in E. simpl in *. inversion E; subst. auto.
Qed.

Lemma non_null_all_present (rows : Table) :
  (forall r, In r rows -> hh_id r <> None) ->
  List.length (non_null hh_id rows) = List.length rows.
Proof.
  unfold non_null. induction rows as [|r rows IH]; simpl; intros H; [reflexivity|].
  destruct (hh_id r) eqn:E.
  - simpl. f_equal. apply IH. intros r' Hr'. apply H. now right.
  - exfalso. apply (H r); [now left | exact E].
Qed.




(** ** Ranks and order *)






(** [period_frame] answers the period query: ranks 1 and 2 by decreasing
    count. *)
Example ranks_of_the_period_scenario :
  answers (returning [] period_frame) period_table
    (build_query DATA_PATH "A" 2020 1 false (Some WHOLE_REGION_SENTINEL)) = true
  /\ map Rank period_frame = [1; 2]
  /\ map Households_Count period_frame = [2; 1].
Proof. repeat split. Qed.

(** ** Empty results and failures *)

Lemma group_keys_nil (rows : Table) : group_keys rows = [] <-> rows = [].
Proof.
  unfold group_keys. rewrite distinct_nil. destruct rows; simpl; split; congruence.
Qed.

Lemma result_nil (t : Table) (q : Query) (df : DataFrame) :
  is_result_of t q df = true ->
  (df = [] <-> WHERE (where_clauses q) t = []).
Proof.
  intros H. apply is_result_of_inv in H. destruct H as [Hagg _].
  rewrite <- group_keys_nil. unfold aggregates in Hagg.
  split; intros E.
  - rewrite E in Hagg. simpl in Hagg. apply Permutation_nil in Hagg.
    now destruct (group_keys (WHERE (where_clauses q) t)).
  - rewrite E in Hagg. simpl in Hagg. apply Permutation_sym, Permutation_nil in Hagg.
    now destruct df.
Qed.

(** C5, as the code has it: when the engine raises, the function catches
    the exception, shows it with [st.error] and returns the empty frame and
    the total 0; when the engine answers the query, the function returns
    the empty frame and 0 exactly when no row passes the filter, and shows
    no message. *)
Theorem empty_result_and_failure (con : Connection) (t : Table) (path state_lit : string)
    (year month : Z) (flag : bool) (selected_district : option string) :
  let q := build_query path state_lit year month flag selected_district in
  let res := get_caste_distribution_duckdb_optimized con path state_lit
               year month flag selected_district in
  (forall e, fetch_distribution con q = Raises e ->
     res = (([], 0),
            [Executed q; st_error ("Error querying data with DuckDB (Parquet): " ++ e)]))
  /\ (answers con t q = true ->
      ((rows_of res = [] /\ total_of res = 0) <-> WHERE (where_clauses q) t = [])
      /\ events_of res = [Executed q]).
Proof.
  intros q res. split.
  - intros e He. unfold res, get_caste_distribution_duckdb_optimized.
    cbv zeta. fold q. now rewrite He.
  - intros Hans. destruct (answers_inv _ _ _ Hans) as [df [Hf Hres]].
    unfold res. unfold q in Hf. rewrite (distribution_fetched _ _ _ _ _ _ _ _ Hf).
    unfold rows_of, total_of, events_of. simpl. split; [|reflexivity].
    destruct (result_nil _ _ _ Hres) as [Hnil1 Hnil2]. split.
    + intros [E _]. now apply Hnil1.
    + intros E. apply Hnil2 in E. subst df. now split.
Qed.

(** C5 as worded fails on an unreachable dataset: the call returns a value,
    the same pair as for a filter that matches nothing, and the error goes
    to the page. *)
Lemma unreachable_dataset_returns_empty_result :
  get_caste_distribution_duckdb_optimized (raising "IO Error: cannot open file")
    DATA_PATH "A" 2020 1 false (Some WHOLE_REGION_SENTINEL)
  = (([], 0),
     [Executed (build_query DATA_PATH "A" 2020 1 false (Some WHOLE_REGION_SENTINEL));
      st_error "Error querying data with DuckDB (Parquet): IO Error: cannot open file"]).
Proof. reflexivity. Qed.

(** A filter that matches nothing, answered by the empty frame: the same
    pair, and no message. *)
Example no_matching_rows_returns_empty_result :
  let q := build_query DATA_PATH "A" 2019 1 false (Some WHOLE_REGION_SENTINEL) in
  WHERE (where_clauses q) period_table = []
  /\ answers (returning [] []) period_table q = true
  /\ get_caste_distribution_duckdb_optimized (returning [] [])
       DATA_PATH "A" 2019 1 false (Some WHOLE_REGION_SENTINEL)
     = (([], 0), [Executed q]).
Proof. repeat split. Qed.

(** ** The statements as shipped *)

(** The call of [read_parquet] that every statement makes does not bind. *)
Lemma read_parquet_call_does_not_bind (path : string) :
  read_parquet_binds (read_parquet_arguments path) = false.
Proof. reflexivity. Qed.

Lemma duckdb_raises (binder_error : string) (scan : Connection) :
  (forall path state_lit,
     fetch_districts (duckdb binder_error scan) path state_lit = Raises binder_error)
  /\ (forall q, fetch_distribution (duckdb binder_error scan) q = Raises binder_error).
Proof. split; reflexivity. Qed.

(** ** The district domain *)


(** A region without districts, on a connection that answers: the
    sentinel alone. *)
Example region_without_rows_gets_the_sentinel :
  get_districts_for_state (returning [] []) DATA_PATH "Z"
  = ([Some WHOLE_REGION_SENTINEL], [ExecutedDistricts DATA_PATH "Z"]).
Proof. reflexivity. Qed.

(** Line 112 looks for the sentinel anywhere in the list: a list that
    holds it further down is returned as it is. *)
Example sentinel_further_down_is_left_in_place :
  fst (get_districts_for_state (returning [Some "Agra"; Some "Entire State"] [])
         DATA_PATH "A")
  = [Some "Agra"; Some "Entire State"].
Proof. reflexivity. Qed.

(** ** Values outside the dropdown domains *)

(** C7, as the code has it: the function takes no domain and checks
    nothing. For every argument list the query is built and sent to the
    engine, first of all; the function then returns the engine's frame
    with the sum of its counts, or, when the engine raises, the empty
    frame and 0 after the message of [st.error]. *)
Theorem every_input_is_queried (con : Connection) (path state_lit : string)
    (year month : Z) (flag : bool) (selected_district : option string) :
  let q := build_query path state_lit year month flag selected_district in
  let res := get_caste_distribution_duckdb_optimized con path state_lit
               year month flag selected_district in
  hd_error (events_of res) = Some (Executed q)
  /\ (forall df, fetch_distribution con q = Fetched df ->
        res = ((df, sum_Z (map Households_Count df)), [Executed q]))
  /\ (forall e, fetch_distribution con q = Raises e ->
        res = (([], 0),
               [Executed q;
                st_error ("Error querying data with DuckDB (Parquet): " ++ e)])).
Proof.
  intros q res. unfold res, get_caste_distribution_duckdb_optimized.
  cbv zeta. fold q.
  destruct (fetch_distribution con q) as [e|df].
  - split; [reflexivity|]. split; [discriminate|]. now intros e' [= <-].
  - split; [reflexivity|]. split; [|discriminate].
    intros df' [= <-]. now destruct df.
Qed.

(** C7 as worded fails: for the region Z, which is no region of any
    dataset at hand, the query with [state = 'Z'] is sent to the engine
    and the call returns a pair. On the statement as it is written the
    engine raises, and the pair is the empty frame and 0; on a connection
    that answers with a frame, the pair is that frame and its total. *)
Lemma unknown_region_is_queried :
  let q := build_query DATA_PATH "Z" 2020 1 false (Some WHOLE_REGION_SENTINEL) in
  where_str q = "state = 'Z' AND date_year = 2020 AND date_month = 1"
  /\ (forall binder_error scan,
        get_caste_distribution_duckdb_optimized (duckdb binder_error scan)
          DATA_PATH "Z" 2020 1 false (Some WHOLE_REGION_SENTINEL)
        = (([], 0),
           [Executed q;
            st_error ("Error querying data with DuckDB (Parquet): " ++ binder_error)]))
  /\ (forall districts,
        get_caste_distribution_duckdb_optimized (returning districts [])
          DATA_PATH "Z" 2020 1 false (Some WHOLE_REGION_SENTINEL)
        = (([], 0), [Executed q])).
Proof. repeat split. Qed.

(** ** Percentages *)

Lemma is_percentage_Some (c T h : Z) :
  is_percentage c T (Some h) = true <->
  0 < T /\ Z.abs (1000 * (T * h) - 1000 * (10000 * c)) <= 501 * T.
Proof.
  unfold is_percentage. now rewrite andb_true_iff, Z.ltb_lt, Z.leb_le.
Qed.

Lemma is_percentage_positive (c T : Z) (p : option Z) :
  0 < T -> is_percentage c T p = true ->
  exists h, p = Some h /\ Z.abs (1000 * (T * h) - 1000 * (10000 * c)) <= 501 * T.
Proof.
  intros HT H. destruct p as [h|].
  - exists h. split; [reflexivity|]. now apply is_percentage_Some in H.
  - simpl in H. apply Z.eqb_eq in H. lia.
Qed.

(** A share that is a whole number of hundredths is reported as it is. *)
Lemma is_percentage_exact (c T h k : Z) :
  is_percentage c T (Some h) = true -> 10000 * c = T * k -> h = k.
Proof.
  intros H E. apply is_percentage_Some in H. destruct H as [HT H].
  rewrite E in H. nia.
Qed.




(** 23 households of 4000: the exact share is 0.575, the binary quotient
    lies just below it and is rounded to 0.57; 0.58 is the rounding of the
    exact share. Both are within the relation, 0.56 is not. *)
Example share_near_a_half :
  is_percentage 23 4000 (Some 57) = true
  /\ is_percentage 23 4000 (Some 58) = true
  /\ is_percentage 23 4000 (Some 56) = false
  /\ is_percentage 23 4000 (Some 59) = false.
Proof. repeat split. Qed.

(** Three groups of one household each: 33.33 three times, 99.99 in all. *)
Example percentages_need_not_sum_to_exactly_100 :
  let t := [household (Some 1) "X" 2020 1 "C1" "K1";
            household (Some 2) "X" 2020 1 "C2" "K2";
            household (Some 3) "X" 2020 1 "C3" "K3"] in
  let df := [mkRankedRow (Some "C1") (Some "K1") 1 (Some 3333) 1;
             mkRankedRow (Some "C2") (Some "K2") 1 (Some 3333) 2;
             mkRankedRow (Some "C3") (Some "K3") 1 (Some 3333) 3] in
  is_result_of t (build_query DATA_PATH "A" 2020 1 false (Some WHOLE_REGION_SENTINEL)) df
  = true
  /\ sum_Z [3333; 3333; 3333] = 9999.
Proof. split; reflexivity. Qed.

(** ** Rows without a household identifier *)

Lemma filter_comm {A : Type} (f g : A -> bool) (l : list A) :
  filter f (filter g l) = filter g (filter f l).
Proof.
  induction l as [|x l IH]; simpl; [reflexivity|].
  destruct (f x) eqn:Ef, (g x) eqn:Eg; simpl; rewrite ?Ef, ?Eg, IH; reflexivity.
Qed.

Lemma non_null_has_id (rows : Table) :
  non_null hh_id (filter has_id rows) = non_null hh_id rows.
Proof.
  unfold non_null, has_id. induction rows as [|r rows IH]; simpl; [reflexivity|].
  destruct (hh_id r) eqn:E; simpl; [rewrite E|]; now rewrite IH.
Qed.

Lemma group_count_has_id (q : Query) (t : Table) (k : Key) :
  group_count q (filter has_id t) k = group_count q t k.
Proof.
  unfold group_count, eval_count, counted_ids, group, WHERE.
  rewrite (filter_comm _ has_id t), (filter_comm _ has_id).
  rewrite non_null_has_id. reflexivity.
Qed.

Lemma non_null_nil (rows : Table) :
  (forall r, In r rows -> has_id r = false) -> non_null hh_id rows = [].
Proof.
  unfold non_null, has_id. induction rows as [|r rows IH]; simpl; intros H; [reflexivity|].
  pose proof (H r (or_introl eq_refl)) as Hr.
  destruct (hh_id r); [discriminate|]. apply IH. intros r' Hr'. apply H. now right.
Qed.

(** A group none of whose rows carries an identifier has the count zero. *)
Lemma group_count_without_ids (q : Query) (t : Table) (k : Key) :
  ~ In k (group_keys (filter has_id (WHERE (where_clauses q) t))) ->
  group_count q t k = 0.
Proof.
  intros Hk. unfold group_count, eval_count.
  assert (E : non_null hh_id (group k (WHERE (where_clauses q) t)) = []).
  { apply non_null_nil. intros r Hr. unfold group in Hr.
    apply filter_In in Hr. destruct Hr as [Hr Hkey].
    destruct (has_id r) eqn:Eid; [|reflexivity].
    exfalso. apply Hk. unfold group_keys.
    apply (distinct_In _ key_eqb_eq). apply key_eqb_eq in Hkey. subst k.
    apply in_map. apply filter_In. now split. }
  unfold counted_ids. rewrite E. now destruct (count_hh_id_clause q).
Qed.

Lemma sum_Z_filter_zero {A : Type} (f : A -> Z) (p : A -> bool) (l : list A) :
  (forall x, In x l -> p x = false -> f x = 0) ->
  sum_Z (map f (filter p l)) = sum_Z (map f l).
Proof.
  induction l as [|x l IH]; simpl; intros H; [reflexivity|].
  assert (IH' : sum_Z (map f (filter p l)) = sum_Z (map f l))
    by (apply IH; intros y Hy; apply H; now right).
  destruct (p x) eqn:E; simpl; rewrite IH'; [reflexivity|].
  rewrite (H x (or_introl eq_refl) E). reflexivity.
Qed.

Lemma window_total_has_id (q : Query) (t : Table) :
  window_total q (filter has_id t) = window_total q t.
Proof.
  unfold window_total.
  rewrite (map_ext _ _ (group_count_has_id q t)).
  unfold WHERE at 1. rewrite (filter_comm _ has_id t). fold (WHERE (where_clauses q) t).
  set (F := WHERE (where_clauses q) t).
  rewrite <- (sum_Z_filter_zero (group_count q t)
                (fun k => memb key_eqb k (group_keys (filter has_id F)))
                (group_keys F)).
  - apply sum_Z_Permutation, Permutation_map. apply NoDup_Permutation.
    + apply (distinct_NoDup _ key_eqb_eq).
    + apply NoDup_filter, (distinct_NoDup _ key_eqb_eq).
    + intros k. rewrite filter_In, (memb_In _ key_eqb_eq). split; [|tauto].
      intros Hk. split; [|exact Hk].
      unfold group_keys in *. apply (proj1 (distinct_In _ key_eqb_eq _ _)) in Hk.
      apply (distinct_In _ key_eqb_eq). apply in_map_iff in Hk.
      destruct Hk as [r [<- Hr]]. apply in_map. apply filter_In in Hr. tauto.
  - intros k _ Hk. apply group_count_without_ids. fold F.
    intros Hin. apply (memb_In _ key_eqb_eq) in Hin. congruence.
Qed.

Lemma answers_total (con : Connection) (t : Table) (path state_lit : string)
    (year month : Z) (flag : bool) (selected_district : option string) :
  answers con t (build_query path state_lit year month flag selected_district) = true ->
  total_of (get_caste_distribution_duckdb_optimized con path state_lit year month
              flag selected_district)
  = window_total (build_query path state_lit year month flag selected_district) t.
Proof.
  intros Hans. destruct (answers_inv _ _ _ Hans) as [df [Hf Hres]].
  rewrite (distribution_fetched _ _ _ _ _ _ _ _ Hf). unfold total_of. simpl.
  now apply result_counts.
Qed.

(** C10: the counting clause is [COUNT(hh_id)] in period mode and
    [COUNT(DISTINCT hh_id)] in panel mode; in both, the rows without a
    household identifier count for nothing: taking them out of the table
    changes no group's count, nor the window total, nor the total that the
    function returns. *)
Theorem null_ids_are_not_counted (con con' : Connection) (t : Table)
    (path state_lit : string) (year month : Z) (flag : bool)
    (selected_district : option string) :
  let q := build_query path state_lit year month flag selected_district in
  let t' := filter has_id t in
  count_hh_id_clause q = (if flag then COUNT_DISTINCT_hh_id else COUNT_hh_id)
  /\ (forall k, group_count q t k = group_count q t' k)
  /\ window_total q t = window_total q t'
  /\ (answers con t q = true -> answers con' t' q = true ->
      total_of (get_caste_distribution_duckdb_optimized con path state_lit
                  year month flag selected_district)
      = total_of (get_caste_distribution_duckdb_optimized con' path state_lit
                    year month flag selected_district)).
Proof.
  intros q t'. split; [reflexivity|]. split; [|split].
  - intros k. symmetry. apply group_count_has_id.
  - symmetry. apply window_total_has_id.
  - intros H H'. unfold q in *.
    rewrite (answers_total _ _ _ _ _ _ _ _ H), (answers_total _ _ _ _ _ _ _ _ H').
    symmetry. apply window_total_has_id.
Qed.

(** A group whose only row has no identifier is still a group of the
    result, with the count 0; it adds nothing to the total. *)
Example group_of_null_ids_has_count_zero :
  let t := [household (Some 1) "X" 2020 1 "C1" "K1";
            household None "X" 2020 1 "C2" "K2"] in
  let q := build_query DATA_PATH "A" 2020 1 false (Some WHOLE_REGION_SENTINEL) in
  group_keys (WHERE (where_clauses q) t) = [(Some "C1", Some "K1"); (Some "C2", Some "K2")]
  /\ group_count q t (Some "C2", Some "K2") = 0
  /\ window_total q t = 1
  /\ is_result_of t q
       [mkRankedRow (Some "C1") (Some "K1") 1 (Some 10000) 1;
        mkRankedRow (Some "C2") (Some "K2") 0 (Some 0) 2] = true.
Proof. repeat split. Qed.

(** * Further properties of the code *)

(** ** The district dropdown *)

(** Whatever the engine answers, the sentinel is among the options of the
    district dropdown; when the engine returns a list, the options are
    that list's values and the sentinel, nothing is lost, and at most one
    option is added. *)
Theorem sentinel_is_always_an_option (con : Connection) (path state_lit : string) :
  let options := fst (get_districts_for_state con path state_lit) in
  In (Some WHOLE_REGION_SENTINEL) options
  /\ (forall e, fetch_districts con path state_lit = Raises e ->
        options = [Some WHOLE_REGION_SENTINEL])
  /\ (forall districts, fetch_districts con path state_lit = Fetched districts ->
        (forall d, In d options <-> d = Some WHOLE_REGION_SENTINEL \/ In d districts)
        /\ (List.length districts <= List.length options <= S (List.length districts))%nat).
Proof.
  unfold get_districts_for_state.
  destruct (fetch_districts con path state_lit) as [e|districts]; simpl.
  - split; [now left|]. split; [reflexivity | discriminate].
  - destruct (memb (option_eqb String.eqb) (Some WHOLE_REGION_SENTINEL) districts) eqn:E;
      simpl.
    + apply (memb_In _ (option_eqb_eq _ String.eqb_eq)) in E.
      split; [exact E|]. split; [discriminate|].
      intros ds [= <-]. split; [|lia].
      intros d. split; [now right | intros [-> | H]; assumption].
    + split; [now left|]. split; [discriminate|].
      intros ds [= <-]. split; [|simpl; lia].
      intros d. simpl. split; intros [H|H]; auto.
Qed.


(** ** The groups of a result *)

Lemma group_keys_In (rows : Table) (k : Key) :
  In k (group_keys rows) <-> exists r, In r rows /\ key_of r = k.
Proof.
  unfold group_keys. rewrite (distinct_In _ key_eqb_eq), in_map_iff.
  split; intros [r [H1 H2]]; exists r; auto.
Qed.

Lemma aggregates_keys (q : Query) (t : Table) :
  map (fun a => (a_caste a, a_caste_category a)) (aggregates q t)
  = group_keys (WHERE (where_clauses q) t).
Proof.
  unfold aggregates. rewrite map_map. simpl.
  rewrite <- (map_id (group_keys _)) at 2. apply map_ext. now intros [k1 k2].
Qed.

Lemma result_keys (t : Table) (q : Query) (df : DataFrame) :
  is_result_of t q df = true ->
  Permutation (map (fun r => (r_caste r, r_caste_category r)) df)
    (group_keys (WHERE (where_clauses q) t)).
Proof.
  intros H. apply is_result_of_inv in H. destruct H as [Hagg _].
  rewrite <- aggregates_keys.
  apply (Permutation_map (fun a => (a_caste a, a_caste_category a))) in Hagg.
  now rewrite map_map in Hagg.
Qed.

(** ** Totals *)

Lemma sum_Z_map_add {A : Type} (f g : A -> Z) (l : list A) :
  sum_Z (map (fun x => f x + g x) l) = sum_Z (map f l) + sum_Z (map g l).
Proof. induction l; simpl; lia. Qed.

Lemma sum_Z_map_le {A : Type} (f g : A -> Z) (l : list A) :
  (forall x, In x l -> f x <= g x) -> sum_Z (map f l) <= sum_Z (map g l).
Proof.
  induction l as [|x l IH]; simpl; intros H; [lia|].
  assert (f x <= g x) by (apply H; now left).
  assert (sum_Z (map f l) <= sum_Z (map g l)) by (apply IH; intros; apply H; now right).
  lia.
Qed.

Lemma sum_Z_indicator (K : list Key) (x : Key) (w : Z) :
  NoDup K -> In x K ->
  sum_Z (map (fun k => if key_eqb k x then w else 0) K) = w.
Proof.
  induction 1 as [|k K Hnotin Hnd IH]; simpl; intros Hin; [destruct Hin|].
  destruct Hin as [->|Hin].
  - rewrite (proj2 (key_eqb_eq x x) eq_refl).
    assert (E : sum_Z (map (fun k => if key_eqb k x then w else 0) K) = 0).
    { clear IH Hnd. induction K as [|k K IH]; simpl; [reflexivity|].
      destruct (key_eqb k x) eqn:E.
      - apply key_eqb_eq in E. subst. exfalso. apply Hnotin. now left.
      - rewrite IH; [reflexivity|]. intros H. apply Hnotin. now right. }
    lia.
  - destruct (key_eqb k x) eqn:E.
    + apply key_eqb_eq in E. subst. contradiction.
    + rewrite (IH Hin). lia.
Qed.

(** Summing a weight group by group is summing it over all rows. *)
Lemma sum_by_group (w : Row -> Z) (K : list Key) (rows : Table) :
  NoDup K ->
  (forall r, In r rows -> In (key_of r) K) ->
  sum_Z (map (fun k => sum_Z (map w (group k rows))) K) = sum_Z (map w rows).
Proof.
  intros Hnd. induction rows as [|r rows IH]; intros Hin.
  - clear Hnd Hin. induction K as [|k K IHK]; simpl in *; [reflexivity | lia].
  - rewrite (map_ext _ (fun k => (if key_eqb k (key_of r) then w r else 0)
                                  + sum_Z (map w (group k rows)))).
    + rewrite sum_Z_map_add, sum_Z_indicator, IH; simpl; auto.
      * intros r0 Hr0. apply Hin. now right.
      * apply Hin. now left.
    + intros k. unfold group. simpl.
      destruct (key_eqb k (key_of r)); simpl; lia.
Qed.

Lemma non_null_length (rows : Table) :
  Z.of_nat (List.length (non_null hh_id rows)) = sum_Z (map id_weight rows).
Proof.
  unfold non_null, id_weight, has_id.
  induction rows as [|r rows IH]; [reflexivity|].
  simpl flat_map. rewrite length_app, Nat2Z.inj_add, IH. simpl.
  destruct (hh_id r); simpl; lia.
Qed.

Lemma window_total_period (q : Query) (t : Table) :
  count_hh_id_clause q = COUNT_hh_id ->
  window_total q t
  = Z.of_nat (List.length (non_null hh_id (WHERE (where_clauses q) t))).
Proof.
  intros Hc. unfold window_total, group_count, eval_count. rewrite Hc. simpl.
  rewrite (map_ext _ (fun k => sum_Z (map id_weight (group k (WHERE (where_clauses q) t)))))
    by (intros k; apply non_null_length).
  rewrite sum_by_group.
  - symmetry. apply non_null_length.
  - apply (distinct_NoDup _ key_eqb_eq).
  - intros r Hr. apply group_keys_In. now exists r.
Qed.

(** In period mode the total that the statement asks for,
    [SUM(COUNT(hh_id)) OVER ()], is the number of rows that pass the filter
    and carry a household identifier: all the rows that pass the filter
    when none lacks an identifier. When the engine answers the query, it is
    the total that the function returns. The rows that pass the filter are
    those of the clause list when no string of it holds an apostrophe. *)
Theorem period_total_counts_matching_rows (t : Table)
    (path state_lit : string) (year month : Z) (selected_district : option string) :
  let q := build_query path state_lit year month false selected_district in
  let matching := WHERE (where_clauses q) t in
  well_quoted q = true ->
  window_total q t = Z.of_nat (List.length (filter has_id matching))
  /\ ((forall r, In r matching -> hh_id r <> None) ->
      window_total q t = Z.of_nat (List.length matching))
  /\ (forall con, answers con t q = true ->
        total_of (get_caste_distribution_duckdb_optimized con path state_lit year month
                    false selected_district)
        = Z.of_nat (List.length (filter has_id matching))).
Proof.
  intros q matching _.
  assert (H : window_total q t = Z.of_nat (List.length (filter has_id matching))).
  { rewrite window_total_period by reflexivity. fold matching.
    rewrite <- (non_null_has_id matching).
    f_equal. apply non_null_all_present.
    intros r Hr. apply filter_In in Hr. destruct Hr as [_ Hr].
    unfold has_id in Hr. now destruct (hh_id r). }
  split; [exact H|]. split.
  - intros Hall. rewrite window_total_period by reflexivity. fold matching.
    f_equal. now apply non_null_all_present.
  - intros con Hans. unfold q in Hans.
    rewrite (answers_total _ _ _ _ _ _ _ _ Hans). exact H.
Qed.

(** Over [null_id_table]: two rows pass the filter, one carries an
    identifier. *)
Lemma period_total_counts_matching_rows_witness :
  let q := build_query DATA_PATH "A" 2020 1 false (Some WHOLE_REGION_SENTINEL) in
  let matching := WHERE (where_clauses q) null_id_table in
  window_total q null_id_table = Z.of_nat (List.length (filter has_id matching))
  /\ ((forall r, In r matching -> hh_id r <> None) ->
      window_total q null_id_table = Z.of_nat (List.length matching))
  /\ (forall con, answers con null_id_table q = true ->
        total_of (get_caste_distribution_duckdb_optimized con DATA_PATH "A" 2020 1
                    false (Some WHOLE_REGION_SENTINEL))
        = Z.of_nat (List.length (filter has_id matching))).
Proof.
  apply (period_total_counts_matching_rows null_id_table DATA_PATH "A" 2020 1
           (Some WHOLE_REGION_SENTINEL)).
  reflexivity.
Defined.

Lemma non_null_In (rows : Table) (h : Z) :
  In h (non_null hh_id rows) <-> exists r, In r rows /\ hh_id r = Some h.
Proof.
  unfold non_null. rewrite in_flat_map. split.
  - intros [r [Hr Hh]]. exists r. split; [exact Hr|].
    destruct (hh_id r); [destruct Hh as [->|[]]; reflexivity | destruct Hh].
  - intros [r [Hr Hh]]. exists r. split; [exact Hr|]. rewrite Hh. now left.
Qed.

Lemma list_sum_Z {A : Type} (f : A -> nat) (l : list A) :
  Z.of_nat (list_sum (map f l)) = sum_Z (map (fun x => Z.of_nat (f x)) l).
Proof. induction l; simpl; [reflexivity|]. rewrite Nat2Z.inj_add. lia. Qed.

(** The identifiers that panel mode counts, group after group. *)
Lemma window_total_panel (q : Query) (t : Table) :
  count_hh_id_clause q = COUNT_DISTINCT_hh_id ->
  window_total q t
  = Z.of_nat (List.length
                (flat_map (fun k => distinct Z.eqb
                                      (non_null hh_id (group k (WHERE (where_clauses q) t))))
                   (group_keys (WHERE (where_clauses q) t)))).
Proof.
  intros Hc. unfold window_total, group_count, eval_count. rewrite Hc. simpl.
  rewrite length_flat_map, list_sum_Z. reflexivity.
Qed.

Lemma distinct_length_le (l : list Z) :
  (List.length (distinct Z.eqb l) <= List.length l)%nat.
Proof.
  induction l as [|x l IH]; simpl; [lia|].
  pose proof (filter_length_le (fun y => negb (x =? y)) (distinct Z.eqb l)). lia.
Qed.

Lemma group_In (k : Key) (rows : Table) (r : Row) :
  In r (group k rows) <-> In r rows /\ key_of r = k.
Proof.
  unfold group. rewrite filter_In, key_eqb_eq. split; intros [H1 H2]; split; auto.
Qed.

Lemma flat_map_NoDup {A B : Type} (f : A -> list B) (l : list A) :
  NoDup l ->
  (forall x, In x l -> NoDup (f x)) ->
  (forall x y b, In x l -> In y l -> In b (f x) -> In b (f y) -> x = y) ->
  NoDup (flat_map f l).
Proof.
  induction 1 as [|x l Hnotin Hnd IH]; simpl; intros Hf Hdisj; [constructor|].
  apply NoDup_app.
  - apply Hf. now left.
  - apply IH.
    + intros y Hy. apply Hf. now right.
    + intros y z b Hy Hz. apply Hdisj; now right.
  - intros b Hb Hb'. apply in_flat_map in Hb'. destruct Hb' as [y [Hy Hby]].
    assert (x = y) by (apply (Hdisj x y b); simpl; auto).
    subst. contradiction.
Qed.

(** In panel mode the total that the statement asks for,
    [SUM(COUNT(DISTINCT hh_id)) OVER ()], lies between the number of
    distinct households among the rows that pass the filter and the number
    of those rows that carry an identifier. It is the number of distinct
    households when every household has one (caste, category) pair
    throughout; a household recorded under two pairs is counted in both
    groups. When the engine answers the query, it is the total that the
    function returns. *)
Theorem panel_total_bounds (t : Table)
    (path state_lit : string) (year month : Z) (selected_district : option string) :
  let q := build_query path state_lit year month true selected_district in
  let matching := WHERE (where_clauses q) t in
  let total := window_total q t in
  well_quoted q = true ->
  Z.of_nat (List.length (distinct Z.eqb (non_null hh_id matching))) <= total
  /\ total <= Z.of_nat (List.length (non_null hh_id matching))
  /\ ((forall r1 r2 h, In r1 matching -> In r2 matching ->
         hh_id r1 = Some h -> hh_id r2 = Some h -> key_of r1 = key_of r2) ->
      total = Z.of_nat (List.length (distinct Z.eqb (non_null hh_id matching))))
  /\ (forall con, answers con t q = true ->
        total_of (get_caste_distribution_duckdb_optimized con path state_lit
                    year month true selected_district) = total).
Proof.
  intros q matching total _. unfold total.
  assert (Hin : forall h,
            In h (flat_map (fun k => distinct Z.eqb (non_null hh_id (group k matching)))
                    (group_keys matching))
            <-> In h (distinct Z.eqb (non_null hh_id matching))).
  { intros h. rewrite in_flat_map, (distinct_In _ Z.eqb_eq), non_null_In. split.
    - intros [k [_ Hh]]. apply (distinct_In _ Z.eqb_eq), non_null_In in Hh.
      destruct Hh as [r [Hr Hid]]. apply group_In in Hr. exists r. tauto.
    - intros [r [Hr Hid]]. exists (key_of r). split.
      + apply group_keys_In. now exists r.
      + apply (distinct_In _ Z.eqb_eq), non_null_In. exists r.
        split; [now apply group_In | exact Hid]. }
  split; [|split; [|split]].
  - rewrite (window_total_panel q t eq_refl). fold matching.
    apply inj_le. apply NoDup_incl_length.
    + apply (distinct_NoDup _ Z.eqb_eq).
    + intros h Hh. now apply Hin.
  - unfold matching. clear Hin. subst q.
    set (cs := where_clauses (build_query path state_lit year month true selected_district)).
    pose proof (window_total_period (mkQuery path COUNT_hh_id cs) t eq_refl) as E.
    change (where_clauses (mkQuery path COUNT_hh_id cs)) with cs in E.
    rewrite <- E. unfold window_total, group_count, eval_count.
    apply (sum_Z_map_le _ _ (group_keys (WHERE cs t))).
    intros k _. apply inj_le. apply distinct_length_le.
  - intros Hone. rewrite (window_total_panel q t eq_refl). fold matching.
    f_equal. apply Permutation_length. apply NoDup_Permutation.
    + apply flat_map_NoDup.
      * apply (distinct_NoDup _ key_eqb_eq).
      * intros k _. apply (distinct_NoDup _ Z.eqb_eq).
      * intros k1 k2 h _ _ H1 H2.
        apply (distinct_In _ Z.eqb_eq), non_null_In in H1, H2.
        destruct H1 as [r1 [Hr1 Hid1]], H2 as [r2 [Hr2 Hid2]].
        apply group_In in Hr1, Hr2. destruct Hr1 as [Hr1 <-], Hr2 as [Hr2 <-].
        now apply (Hone r1 r2 h).
    + apply (distinct_NoDup _ Z.eqb_eq).
    + exact Hin.
  - intros con Hans. unfold q in Hans.
    now rewrite (answers_total _ _ _ _ _ _ _ _ Hans).
Qed.

(** In [panel_table] every household keeps its pair: the total 3 is the
    number of households. *)
Lemma panel_total_bounds_witness :
  let q := build_query DATA_PATH "A" 2020 1 true (Some WHOLE_REGION_SENTINEL) in
  let matching := WHERE (where_clauses q) panel_table in
  let total := window_total q panel_table in
  Z.of_nat (List.length (distinct Z.eqb (non_null hh_id matching))) <= total
  /\ total <= Z.of_nat (List.length (non_null hh_id matching))
  /\ ((forall r1 r2 h, In r1 matching -> In r2 matching ->
         hh_id r1 = Some h -> hh_id r2 = Some h -> key_of r1 = key_of r2) ->
      total = Z.of_nat (List.length (distinct Z.eqb (non_null hh_id matching))))
  /\ (forall con, answers con panel_table q = true ->
        total_of (get_caste_distribution_duckdb_optimized con DATA_PATH "A"
                    2020 1 true (Some WHOLE_REGION_SENTINEL)) = total).
Proof.
  apply (panel_total_bounds panel_table DATA_PATH "A" 2020 1
           (Some WHOLE_REGION_SENTINEL)).
  reflexivity.
Defined.

(** Household 1 of [caste_change_table] is recorded under two castes: one
    household, and the panel total 2. *)
Example household_under_two_castes_counts_twice :
  let q := build_query DATA_PATH "A" 2020 1 true None in
  List.length (distinct Z.eqb (non_null hh_id (WHERE (where_clauses q) caste_change_table)))
  = 1%nat
  /\ window_total q caste_change_table = 2.
Proof. split; reflexivity. Qed.

Lemma sum_Z_In_le (l : list Z) (x : Z) :
  (forall y, In y l -> 0 <= y) -> In x l -> x <= sum_Z l.
Proof.
  induction l as [|y l IH]; simpl; intros Hpos Hin; [destruct Hin|].
  assert (0 <= y) by (apply Hpos; now left).
  assert (0 <= sum_Z l).
  { clear IH Hin. induction l as [|z l IHl]; simpl; [lia|].
    assert (0 <= z) by (apply Hpos; simpl; auto).
    assert (0 <= sum_Z l) by (apply IHl; intros w Hw; apply Hpos; simpl in *; tauto).
    lia. }
  destruct Hin as [->|Hin]; [lia|].
  assert (x <= sum_Z l) by (apply IH; [intros; apply Hpos; now right | exact Hin]).
  lia.
Qed.

Lemma group_count_nonneg (q : Query) (t : Table) (k : Key) : 0 <= group_count q t k.
Proof. unfold group_count, eval_count. lia. Qed.

(** The count of a group is never negative and never above the total of
    the statement. When the engine answers the query, every count of the
    frame lies between 0 and the returned total; with a positive total
    every percentage is a number between 0 and 100, and with the total 0
    (every row that passes the filter lacks an identifier) no row has a
    percentage. *)
Theorem counts_and_percentages_in_range (t : Table)
    (path state_lit : string) (year month : Z) (flag : bool)
    (selected_district : option string) :
  let q := build_query path state_lit year month flag selected_district in
  (forall k, 0 <= group_count q t k)
  /\ (forall k, In k (group_keys (WHERE (where_clauses q) t)) ->
        group_count q t k <= window_total q t)
  /\ (forall con row,
        let res := get_caste_distribution_duckdb_optimized con path state_lit
                     year month flag selected_district in
        answers con t q = true ->
        In row (rows_of res) ->
        0 <= Households_Count row <= total_of res
        /\ (0 < total_of res ->
            exists h, Percentage row = Some h /\ 0 <= h <= 100 * 100)
        /\ (total_of res = 0 -> Percentage row = None)).
Proof.
  intros q.
  assert (Hle : forall k, In k (group_keys (WHERE (where_clauses q) t)) ->
                  group_count q t k <= window_total q t).
  { intros k Hk. unfold window_total. apply sum_Z_In_le.
    - intros y Hy. apply in_map_iff in Hy. destruct Hy as [k' [<- _]].
      apply group_count_nonneg.
    - now apply in_map. }
  split; [intros k; apply group_count_nonneg|]. split; [exact Hle|].
  intros con row res Hans Hin. unfold res in *. unfold q in Hans.
  rewrite (answers_total _ _ _ _ _ _ _ _ Hans). fold q.
  destruct (answers_inv _ _ _ Hans) as [df [Hf Hres]].
  rewrite (distribution_fetched _ _ _ _ _ _ _ _ Hf) in Hin.
  unfold rows_of in Hin. simpl in Hin. fold q in Hres.
  destruct (result_row_count _ _ _ _ Hres Hin) as [Hk Hc].
  pose proof (is_result_of_percentage _ _ _ _ Hres Hin) as Hp.
  assert (Hrange : 0 <= Households_Count row <= window_total q t).
  { rewrite Hc. split; [apply group_count_nonneg | now apply Hle]. }
  split; [exact Hrange|]. split.
  - intros Hpos.
    destruct (is_percentage_positive _ _ _ Hpos Hp) as [h [Eh Hb]].
    exists h. split; [exact Eh|]. nia.
  - intros H0. rewrite H0 in Hp. destruct (Percentage row) as [h|]; [|reflexivity].
    simpl in Hp. discriminate.
Qed.

(** Every matching row of this table lacks an identifier: the one group
    has the count 0 and no percentage, and the total is 0. *)
Example only_null_ids_give_no_percentage :
  let t := [household None "X" 2020 1 "C1" "K1"] in
  let q := build_query DATA_PATH "A" 2020 1 false (Some WHOLE_REGION_SENTINEL) in
  window_total q t = 0
  /\ is_result_of t q [mkRankedRow (Some "C1") (Some "K1") 0 None 1] = true
  /\ is_result_of t q [mkRankedRow (Some "C1") (Some "K1") 0 (Some 0) 1] = false.
Proof. repeat split. Qed.

(** ** Narrowing to a district *)

Lemma sum_Z_over_subkeys (f : Key -> Z) (K K' : list Key) :
  NoDup K -> NoDup K' -> incl K' K ->
  (forall k, In k K -> ~ In k K' -> f k = 0) ->
  sum_Z (map f K') = sum_Z (map f K).
Proof.
  intros Hnd Hnd' Hincl Hzero.
  rewrite <- (sum_Z_filter_zero f (fun k => memb key_eqb k K') K).
  - apply sum_Z_Permutation, Permutation_map, NoDup_Permutation.
    + exact Hnd'.
    + now apply NoDup_filter.
    + intros k. rewrite filter_In, (memb_In _ key_eqb_eq). split; [|tauto].
      intros Hk. split; [now apply Hincl | exact Hk].
  - intros k Hk Hm. apply Hzero; [exact Hk|].
    intros Hin. apply (memb_In _ key_eqb_eq) in Hin. congruence.
Qed.

Lemma WHERE_app (cs : list Clause) (c : Clause) (t : Table) :
  WHERE (cs ++ [c]) t = filter (holds c) (WHERE cs t).
Proof.
  unfold WHERE. induction t as [|r t IH]; simpl; [reflexivity|].
  rewrite forallb_app. simpl. rewrite andb_true_r.
  destruct (forallb (fun c0 => holds c0 r) cs); simpl; rewrite IH;
    [reflexivity|].
  reflexivity.
Qed.

Lemma eval_count_filter_le (c : CountClause) (p : Row -> bool) (rows : Table) :
  eval_count c (filter p rows) <= eval_count c rows.
Proof.
  unfold eval_count. apply inj_le.
  assert (Hincl : incl (non_null hh_id (filter p rows)) (non_null hh_id rows)).
  { intros h Hh. apply non_null_In in Hh. destruct Hh as [r [Hr Hid]].
    apply filter_In in Hr. apply non_null_In. exists r. tauto. }
  destruct c; simpl.
  - unfold non_null. induction rows as [|r rows IH]; simpl; [lia|].
    assert (IH' : (List.length (flat_map (fun r0 => match hh_id r0 with
                                                    | Some v => [v] | None => [] end)
                                  (filter p rows))
                   <= List.length (flat_map (fun r0 => match hh_id r0 with
                                                       | Some v => [v] | None => [] end)
                                     rows))%nat).
    { apply IH. intros h Hh. apply non_null_In in Hh. destruct Hh as [r0 [Hr0 Hid]].
      apply filter_In in Hr0. apply non_null_In. exists r0. tauto. }
    destruct (p r); simpl; rewrite ?length_app; simpl; lia.
  - apply NoDup_incl_length; [apply (distinct_NoDup _ Z.eqb_eq)|].
    intros h Hh. apply (distinct_In _ Z.eqb_eq).
    apply (proj1 (distinct_In _ Z.eqb_eq _ _)) in Hh. now apply Hincl.
Qed.

Lemma window_total_narrow (q q' : Query) (c : Clause) (t : Table) :
  count_hh_id_clause q' = count_hh_id_clause q ->
  where_clauses q' = (where_clauses q ++ [c])%list ->
  (forall k, group_count q' t k <= group_count q t k)
  /\ window_total q' t <= window_total q t.
Proof.
  intros Hc Hw.
  assert (Hg : forall k, group_count q' t k <= group_count q t k).
  { intros k. unfold group_count. rewrite Hc, Hw, WHERE_app.
    unfold group. rewrite filter_comm. apply eval_count_filter_le. }
  split; [exact Hg|].
  unfold window_total.
  rewrite (sum_Z_over_subkeys (group_count q' t)
             (group_keys (WHERE (where_clauses q) t))
             (group_keys (WHERE (where_clauses q') t))).
  - apply sum_Z_map_le. intros k _. apply Hg.
  - apply (distinct_NoDup _ key_eqb_eq).
  - apply (distinct_NoDup _ key_eqb_eq).
  - intros k Hk. apply group_keys_In in Hk. destruct Hk as [r [Hr Hkey]].
    apply group_keys_In. exists r. split; [|exact Hkey].
    rewrite Hw, WHERE_app in Hr. apply filter_In in Hr. tauto.
  - intros k _ Hk. unfold group_count, eval_count.
    assert (E : group k (WHERE (where_clauses q') t) = []).
    { destruct (group k (WHERE (where_clauses q') t)) as [|r g] eqn:E; [reflexivity|].
      exfalso. apply Hk. apply group_keys_In. exists r.
      apply group_In. rewrite E. now left. }
    rewrite E. now destruct (count_hh_id_clause q').
Qed.

(** For a state and a district without an apostrophe, choosing the
    district never raises a number: against the selection "Entire State"
    with the same state, period and mode, the total of the statement is
    not larger, and no (caste, category) pair has a larger count. When the
    engine answers both queries, this holds of the two returned totals,
    and every row of the district's frame has a row of the whole-state
    frame with the same pair and a count at least as large. *)
Theorem district_never_raises_counts (t : Table)
    (path state_lit d : string) (year month : Z) (flag : bool) :
  let q := build_query path state_lit year month flag (Some WHOLE_REGION_SENTINEL) in
  let q' := build_query path state_lit year month flag (Some d) in
  quote_free state_lit = true ->
  quote_free d = true ->
  (forall k, group_count q' t k <= group_count q t k)
  /\ window_total q' t <= window_total q t
  /\ (forall con,
        let whole := get_caste_distribution_duckdb_optimized con path state_lit
                       year month flag (Some WHOLE_REGION_SENTINEL) in
        let part := get_caste_distribution_duckdb_optimized con path state_lit
                      year month flag (Some d) in
        answers con t q = true ->
        answers con t q' = true ->
        total_of part <= total_of whole
        /\ forall row, In row (rows_of part) ->
             exists row', In row' (rows_of whole)
               /\ r_caste row' = r_caste row
               /\ r_caste_category row' = r_caste_category row
               /\ Households_Count row <= Households_Count row').
Proof.
  intros q q' _ _.
  assert (Hq : where_clauses q' = where_clauses q
               \/ where_clauses q' = (where_clauses q ++ [district_eq d])%list).
  { unfold q, q'. rewrite !build_query_clauses. simpl.
    destruct (String.eqb d "" || String.eqb d WHOLE_REGION_SENTINEL); [left|right].
    - reflexivity.
    - destruct flag; reflexivity. }
  assert (Hle : (forall k, group_count q' t k <= group_count q t k)
                /\ window_total q' t <= window_total q t).
  { destruct Hq as [Hq|Hq].
    - unfold window_total, group_count. rewrite Hq.
      split; [intros k|]; unfold q, q', build_query; simpl; lia.
    - apply (window_total_narrow q q' (district_eq d)); [reflexivity | exact Hq]. }
  destruct Hle as [Hg Ht]. split; [exact Hg|]. split; [exact Ht|].
  intros con whole part Hw Hp. unfold whole, part. unfold q in Hw. unfold q' in Hp.
  rewrite (answers_total _ _ _ _ _ _ _ _ Hw), (answers_total _ _ _ _ _ _ _ _ Hp).
  destruct (answers_inv _ _ _ Hw) as [df [Hf Hres]].
  destruct (answers_inv _ _ _ Hp) as [df' [Hf' Hres']].
  rewrite (distribution_fetched _ _ _ _ _ _ _ _ Hf), (distribution_fetched _ _ _ _ _ _ _ _ Hf').
  unfold rows_of. simpl fst. fold q in Hres. fold q' in Hres'. fold q q'.
  split; [exact Ht|].
  intros row Hrow.
  destruct (result_row_count _ _ _ _ Hres' Hrow) as [Hk Hc].
  assert (Hk0 : In (r_caste row, r_caste_category row)
                  (group_keys (WHERE (where_clauses q) t))).
  { apply group_keys_In in Hk. destruct Hk as [r [Hr Hkey]].
    apply group_keys_In. exists r. split; [|exact Hkey].
    destruct Hq as [Hq|Hq]; rewrite Hq in Hr; [exact Hr|].
    rewrite WHERE_app in Hr. apply filter_In in Hr. tauto. }
  assert (Hin0 : In (r_caste row, r_caste_category row)
                   (map (fun r => (r_caste r, r_caste_category r)) df)).
  { eapply Permutation_in; [symmetry; apply (result_keys _ _ _ Hres)|exact Hk0]. }
  apply in_map_iff in Hin0. destruct Hin0 as [row' [Hkey' Hrow']].
  exists row'. inversion Hkey' as [[E1 E2]].
  repeat split; auto.
  destruct (result_row_count _ _ _ _ Hres Hrow') as [_ Hc'].
  rewrite Hc, Hc', E1, E2. apply Hg.
Qed.

(** District X of state A in [period_table], against the whole state. *)
Lemma district_never_raises_counts_witness :
  let q := build_query DATA_PATH "A" 2020 1 false (Some WHOLE_REGION_SENTINEL) in
  let q' := build_query DATA_PATH "A" 2020 1 false (Some "X") in
  (forall k, group_count q' period_table k <= group_count q period_table k)
  /\ window_total q' period_table <= window_total q period_table
  /\ (forall con,
        let whole := get_caste_distribution_duckdb_optimized con DATA_PATH "A"
                       2020 1 false (Some WHOLE_REGION_SENTINEL) in
        let part := get_caste_distribution_duckdb_optimized con DATA_PATH "A"
                      2020 1 false (Some "X") in
        answers con period_table q = true ->
        answers con period_table q' = true ->
        total_of part <= total_of whole
        /\ forall row, In row (rows_of part) ->
             exists row', In row' (rows_of whole)
               /\ r_caste row' = r_caste row
               /\ r_caste_category row' = r_caste_category row
               /\ Households_Count row <= Households_Count row').
Proof.
  apply (district_never_raises_counts period_table DATA_PATH "A" "X" 2020 1 false);
    reflexivity.
Defined.

(** ** The page *)

(** The header names the district exactly when the query filters by it,
    and names the month and the year exactly when the query filters by
    them: the texts and the clause list branch on the same conditions. *)
Theorem header_tells_the_filter (selected_state : string)
    (selected_year selected_month : Z) (view_entire_panel : bool)
    (selected_district : option string) :
  let q := build_query DATA_PATH selected_state selected_year selected_month
             view_entire_panel selected_district in
  (forall d, In (district_eq d) (where_clauses q) ->
     location_text selected_state selected_district
     = "in " ++ d ++ ", " ++ selected_state)
  /\ ((forall d, ~ In (district_eq d) (where_clauses q)) ->
      location_text selected_state selected_district = "in " ++ selected_state)
  /\ (In (date_year_eq selected_year) (where_clauses q)
      /\ In (date_month_eq selected_month) (where_clauses q)
      /\ time_text view_entire_panel selected_year selected_month
         = "for " ++ month_label selected_month ++ "/" ++ int_text selected_year
      \/ (forall y m, ~ In (date_year_eq y) (where_clauses q)
                      /\ ~ In (date_month_eq m) (where_clauses q))
         /\ time_text view_entire_panel selected_year selected_month
            = "across the entire panel").
Proof.
  cbv zeta. rewrite build_query_clauses. unfold location_text, time_text, truthy.
  split; [|split].
  - intros d Hd. simpl in Hd. destruct Hd as [Hd|Hd]; [discriminate|].
    apply in_app_or in Hd. destruct Hd as [Hd|Hd].
    + destruct view_entire_panel; simpl in Hd; [destruct Hd|].
      destruct Hd as [Hd|[Hd|[]]]; discriminate.
    + destruct selected_district as [d'|]; [|destruct Hd].
      destruct (String.eqb d' ""), (String.eqb d' WHOLE_REGION_SENTINEL);
        simpl in *; try (destruct Hd; fail).
      destruct Hd as [[= ->]|[]]. reflexivity.
  - intros Hno. destruct selected_district as [d'|]; [|reflexivity].
    destruct (String.eqb d' ""), (String.eqb d' WHOLE_REGION_SENTINEL);
      simpl in *; try reflexivity.
    exfalso. apply (Hno d'). right. apply in_or_app. right. now left.
  - destruct view_entire_panel.
    + right. split; [|reflexivity]. intros y m. simpl.
      split; intros [H|H]; try discriminate;
        destruct selected_district as [d'|]; simpl in H; try (destruct H; fail);
        destruct (String.eqb d' "" || String.eqb d' WHOLE_REGION_SENTINEL);
        simpl in H; try (destruct H; fail); destruct H as [H|[]]; discriminate.
    + left. simpl. repeat split; auto.
Qed.

(** The page shows the no-data warning exactly when the returned frame is
    empty, and that is the only warning it can show: the second warning of
    the source, about the dominant jati, is out of reach. When the engine
    raises, the page shows the error of the query function and then the
    no-data warning. *)
Theorem page_warnings (con : Connection) (selected_state : string)
    (selected_year selected_month : Z) (view_entire_panel : bool)
    (selected_district : option string) :
  let q := build_query DATA_PATH selected_state selected_year selected_month
             view_entire_panel selected_district in
  let res := get_caste_distribution_duckdb_optimized con DATA_PATH selected_state
               selected_year selected_month view_entire_panel selected_district in
  let shown := show_distribution con selected_state selected_year selected_month
                 view_entire_panel selected_district in
  let no_data := "No data found for the selected filters. Please adjust your selections." in
  (rows_of res = [] <-> snd shown = [st_warning no_data])
  /\ (forall msg, In (st_warning msg) (snd shown) -> msg = no_data /\ rows_of res = [])
  /\ (forall e, fetch_distribution con q = Raises e ->
        shown = ([Executed q;
                  st_error ("Error querying data with DuckDB (Parquet): " ++ e)],
                 [st_warning no_data])).
Proof.
  cbv zeta. unfold show_distribution. simpl snd.
  set (res := get_caste_distribution_duckdb_optimized con DATA_PATH selected_state
                selected_year selected_month view_entire_panel selected_district).
  split; [|split].
  - destruct (rows_of res) as [|x l]; simpl; split; congruence.
  - intros msg. destruct (rows_of res) as [|x l]; simpl.
    + intros [[= <-]|[]]. now split.
    + intros H. repeat (destruct H as [H|H]; [discriminate|]). destruct H.
  - intros e He. unfold res, get_caste_distribution_duckdb_optimized.
    cbv zeta. rewrite He. reflexivity.
Qed.


(** ** Month labels *)

Lemma int_text_parses (z : Z) :
  NilZero.int_of_string (int_text z) = Some (Z.to_int z).
Proof.
  unfold int_text. apply NilZero.isi; destruct z; simpl; try discriminate;
    intros [= H]; now apply DecimalPos.Unsigned.to_uint_nonnil in H.
Qed.

Lemma int_text_inj (x y : Z) : int_text x = int_text y -> x = y.
Proof.
  intros H. apply DecimalZ.to_int_inj.
  pose proof (int_text_parses x) as Hx. rewrite H, int_text_parses in Hx.
  congruence.
Qed.

Lemma month_label_named (x : Z) :
  1 <= x <= 12 -> NilZero.int_of_string (month_label x) = None.
Proof.
  intros H.
  assert (Hx : x = 1 \/ x = 2 \/ x = 3 \/ x = 4 \/ x = 5 \/ x = 6 \/ x = 7 \/ x = 8
               \/ x = 9 \/ x = 10 \/ x = 11 \/ x = 12) by lia.
  repeat (destruct Hx as [->|Hx]; [reflexivity|]). subst x. reflexivity.
Qed.

Lemma month_label_unnamed (x : Z) :
  ~ 1 <= x <= 12 -> month_label x = int_text x.
Proof.
  intros H. unfold month_label, MONTH_NAMES, dict_get.
  repeat (match goal with
          | |- context [?k =? x] => destruct (Z.eqb_spec k x); [lia|]
          end).
  reflexivity.
Qed.

(** The month dropdown never shows one label for two values: the twelve
    names are distinct, a value without a name is shown by its decimal
    text, and no decimal text is a month name. *)
Theorem month_labels_are_distinct (x y : Z) :
  month_label x = month_label y <-> x = y.
Proof.
  split; [|now intros ->]. intros H.
  destruct (Z_le_dec 1 x) as [Hx1|Hx1]; [destruct (Z_le_dec x 12) as [Hx2|Hx2]|];
    (destruct (Z_le_dec 1 y) as [Hy1|Hy1]; [destruct (Z_le_dec y 12) as [Hy2|Hy2]|]);
    try (rewrite (month_label_unnamed x), (month_label_unnamed y) in H by lia;
         now apply int_text_inj);
    try (pose proof (month_label_named x ltac:(lia)) as Hn;
         rewrite H, (month_label_unnamed y), int_text_parses in Hn by lia;
         discriminate);
    try (pose proof (month_label_named y ltac:(lia)) as Hn;
         rewrite <- H, (month_label_unnamed x), int_text_parses in Hn by lia;
         discriminate).
  assert (Hx : x = 1 \/ x = 2 \/ x = 3 \/ x = 4 \/ x = 5 \/ x = 6 \/ x = 7 \/ x = 8
               \/ x = 9 \/ x = 10 \/ x = 11 \/ x = 12) by lia.
  assert (Hy : y = 1 \/ y = 2 \/ y = 3 \/ y = 4 \/ y = 5 \/ y = 6 \/ y = 7 \/ y = 8
               \/ y = 9 \/ y = 10 \/ y = 11 \/ y = 12) by lia.
  clear Hx1 Hx2 Hy1 Hy2.
  repeat (destruct Hx as [Hx|Hx]); subst x;
    repeat (destruct Hy as [Hy|Hy]); subst y;
    first [reflexivity | vm_compute in H; discriminate H].
Qed.

(** ** Start of the script *)


(** ** The preselected options *)

Section IndexFacts.
Context {A : Type}.
Variable eqb : A -> A -> bool.
Hypothesis eqb_eq : forall x y, eqb x y = true <-> x = y.

Lemma index_nth_error (x : A) (l : list A) (i : nat) :
  index eqb x l = Some i -> nth_error l i = Some x.
Proof.
  revert i. induction l as [|y l IH]; simpl; intros i H; [discriminate|].
  destruct (eqb y x) eqn:E.
  - inversion H. subst. apply eqb_eq in E. now subst.
  - destruct (index eqb x l) as [j|]; [|discriminate].
    inversion H. subst. simpl. now apply IH.
Qed.

Lemma index_In (x : A) (l : list A) :
  In x l -> exists i, index eqb x l = Some i.
Proof.
  induction l as [|y l IH]; simpl; intros H; [destruct H|].
  destruct (eqb y x) eqn:E; [now exists 0%nat|].
  destruct H as [->|H].
  - assert (eqb x x = true) by now apply eqb_eq. congruence.
  - destruct (IH H) as [i Hi]. rewrite Hi. now exists (S i).
Qed.

(** [l[l.index(x)]] is [x] when [x] is in [l]; otherwise the fallback
    position is used. *)
Lemma index_if_in_nth_error (x : A) (l : list A) (otherwise : nat) :
  (In x l -> nth_error l (index_if_in eqb x l otherwise) = Some x)
  /\ (~ In x l -> index_if_in eqb x l otherwise = otherwise).
Proof.
  unfold index_if_in. split; intros H.
  - rewrite (proj2 (memb_In _ eqb_eq x l) H).
    destruct (index_In x l H) as [i Hi]. rewrite Hi. now apply index_nth_error.
  - destruct (memb eqb x l) eqn:E; [|reflexivity].
    apply (memb_In _ eqb_eq) in E. contradiction.
Qed.
End IndexFacts.

Lemma last_index_nth_error {A : Type} (l : list A) (d : A) :
  l <> [] -> nth_error l (last_index l) = Some (last l d).
Proof.
  intros H. destruct l as [|x l]; [contradiction|]. clear H.
  unfold last_index.
  replace (List.length (x :: l) - 1)%nat with (List.length l) by (simpl; lia).
  revert x. induction l as [|y l IH]; intros x; [reflexivity|].
  change (nth_error (y :: l) (List.length l) = Some (last (y :: l) d)).
  apply IH.
Qed.

(** Once the script is past line 58, each of the three dropdowns starts on
    an option of its list, whatever the engine answered: the state on the
    most common state when that is in the list and on the first state
    otherwise, the year on the last year, the month on January when
    January is in the list and on the last month otherwise. *)
Theorem dropdowns_start_on_an_option (con : MetadataConnection) (path : string)
    (m : Metadata) :
  startup con path = Goes m ->
  (exists s, selectbox (m_states m) (state_index m) = Some s
     /\ (In (m_most_common_state m) (m_states m) -> s = m_most_common_state m)
     /\ (~ In (m_most_common_state m) (m_states m) -> hd_error (m_states m) = Some s))
  /\ selectbox (m_years m) (year_index m) = Some (last (m_years m) None)
  /\ (exists mo, selectbox (m_months m) (month_index m) = Some mo
        /\ (In (Some 1) (m_months m) -> mo = Some 1)
        /\ (~ In (Some 1) (m_months m) -> mo = last (m_months m) None)).
Proof.
  unfold startup. destruct (load_and_prepare_metadata con path) as [msg|m0];
    [discriminate|].
  destruct (m_states m0) as [|s0 ss] eqn:Es; [discriminate|].
  destruct (m_years m0) as [|y0 ys] eqn:Ey; [discriminate|].
  destruct (m_months m0) as [|mo0 ms] eqn:Em; [discriminate|].
  intros [= <-]. unfold selectbox, state_index, year_index, month_index.
  rewrite Es, Ey, Em. split; [|split].
  - destruct (memb (option_eqb String.eqb) (m_most_common_state m0) (s0 :: ss)) eqn:E.
    + apply (memb_In _ (option_eqb_eq _ String.eqb_eq)) in E.
      exists (m_most_common_state m0).
      split; [|split; [reflexivity | contradiction]].
      now apply (index_if_in_nth_error _ (option_eqb_eq _ String.eqb_eq)).
    + assert (Hn : ~ In (m_most_common_state m0) (s0 :: ss)).
      { intros H. apply (memb_In _ (option_eqb_eq _ String.eqb_eq)) in H. congruence. }
      exists s0.
      rewrite (proj2 (index_if_in_nth_error _ (option_eqb_eq _ String.eqb_eq) _ _ 0%nat) Hn).
      split; [reflexivity|]. split; [contradiction | reflexivity].
  - apply last_index_nth_error. discriminate.
  - destruct (memb (option_eqb Z.eqb) (Some 1) (mo0 :: ms)) eqn:E.
    + apply (memb_In _ (option_eqb_eq _ Z.eqb_eq)) in E.
      exists (Some 1).
      split; [|split; [reflexivity | contradiction]].
      now apply (index_if_in_nth_error _ (option_eqb_eq _ Z.eqb_eq)).
    + assert (Hn : ~ In (Some 1) (mo0 :: ms)).
      { intros H. apply (memb_In _ (option_eqb_eq _ Z.eqb_eq)) in H. congruence. }
      exists (last (mo0 :: ms) None).
      rewrite (proj2 (index_if_in_nth_error _ (option_eqb_eq _ Z.eqb_eq) _ _
                        (last_index (mo0 :: ms))) Hn).
      split; [apply last_index_nth_error; discriminate|].
      split; [contradiction | reflexivity].
Qed.

(** States A and B, B the most common; years 2019 and 2021; months 3
    and 7: state B, year 2021, month 7. *)
Lemma dropdowns_start_on_an_option_witness :
  let m := mkMetadata [Some "A"; Some "B"] [Some 2019; Some 2021] [Some 3; Some 7]
             (Some "B") in
  (exists s, selectbox (m_states m) (state_index m) = Some s
     /\ (In (m_most_common_state m) (m_states m) -> s = m_most_common_state m)
     /\ (~ In (m_most_common_state m) (m_states m) -> hd_error (m_states m) = Some s))
  /\ selectbox (m_years m) (year_index m) = Some (last (m_years m) None)
  /\ (exists mo, selectbox (m_months m) (month_index m) = Some mo
        /\ (In (Some 1) (m_months m) -> mo = Some 1)
        /\ (~ In (Some 1) (m_months m) -> mo = last (m_months m) None)).
Proof.
  apply (dropdowns_start_on_an_option
           (returning_metadata [Some "A"; Some "B"] [Some 2019; Some 2021]
              [Some 3; Some 7] [Some "B"])
           DATA_PATH).
  reflexivity.
Defined.

(** ** The text of the filter *)

Lemma append_assoc (a b c : string) : (a ++ b) ++ c = a ++ b ++ c.
Proof. induction a as [|x a IH]; simpl; [reflexivity | now rewrite IH]. Qed.

Lemma append_nil_r (a : string) : a ++ "" = a.
Proof. induction a as [|x a IH]; simpl; [reflexivity | now rewrite IH]. Qed.

Lemma append_inj_l (a x y : string) : a ++ x = a ++ y -> x = y.
Proof. induction a as [|c a IH]; simpl; [auto | intros [= H]; auto]. Qed.

(** Two texts that each start with a part free of [c], followed by
    nothing or by [c], are equal only part by part. *)
Lemma lacks_split (c : ascii) (a a' r r' : string) :
  lacks c a = true -> lacks c a' = true ->
  (r = "" \/ exists u, r = String c u) ->
  (r' = "" \/ exists u, r' = String c u) ->
  a ++ r = a' ++ r' -> a = a' /\ r = r'.
Proof.
  revert a'. induction a as [|x a IH]; intros [|x' a'] Ha Ha' Hr Hr' E; simpl in *.
  - now split.
  - apply andb_true_iff in Ha'. destruct Ha' as [Hx _].
    destruct Hr as [->|[u ->]]; [discriminate|].
    injection E as <- _. now rewrite Ascii.eqb_refl in Hx.
  - apply andb_true_iff in Ha. destruct Ha as [Hx _].
    destruct Hr' as [->|[u ->]]; [discriminate|].
    injection E as -> _. now rewrite Ascii.eqb_refl in Hx.
  - apply andb_true_iff in Ha, Ha'. destruct Ha as [_ Ha], Ha' as [_ Ha'].
    injection E as -> E. destruct (IH a' Ha Ha' Hr Hr' E) as [-> ->]. now split.
Qed.

Lemma string_of_uint_lacks_space (d : Decimal.uint) :
  lacks " " (NilEmpty.string_of_uint d) = true.
Proof. induction d; simpl; auto. Qed.

(** The decimal text of an integer holds no space. *)
Lemma int_text_lacks_space (z : Z) : lacks " " (int_text z) = true.
Proof.
  unfold int_text, NilZero.string_of_int, NilZero.string_of_uint.
  destruct (Z.to_int z) as [d|d]; destruct d; simpl;
    auto using string_of_uint_lacks_space.
Qed.

(** The text of the [WHERE] clause, part by part. *)
Lemma where_str_parts (path state_lit : string) (year month : Z) (flag : bool)
    (selected_district : option string) :
  where_str (build_query path state_lit year month flag selected_district)
  = "state = '" ++ state_lit ++ "'"
    ++ (if flag then ""
        else " AND date_year = " ++ int_text year
             ++ " AND date_month = " ++ int_text month)
    ++ match selected_district with
       | Some d =>
           if String.eqb d "" || String.eqb d WHOLE_REGION_SENTINEL then ""
           else " AND district = '" ++ d ++ "'"
       | None => ""
       end.
Proof.
  unfold where_str. rewrite build_query_clauses.
  destruct flag, selected_district as [d|];
    try destruct (String.eqb d "" || String.eqb d WHOLE_REGION_SENTINEL);
    cbn [app map String.concat clause_text];
    rewrite ?append_assoc, ?append_nil_r; cbn [append];
    rewrite ?append_assoc; cbn [append]; reflexivity.
Qed.

(** For region and district values without an apostrophe the text of the
    [WHERE] clause tells the filter: two selections with the same text
    have the same clause list. *)
Theorem where_str_determines_the_filter (path path' state_lit state_lit' : string)
    (year year' month month' : Z) (flag flag' : bool)
    (selected_district selected_district' : option string) :
  let q := build_query path state_lit year month flag selected_district in
  let q' := build_query path' state_lit' year' month' flag' selected_district' in
  well_quoted q = true ->
  well_quoted q' = true ->
  where_str q = where_str q' ->
  where_clauses q = where_clauses q'.
Proof.
  intros q q' Hq Hq' E. unfold q, q', well_quoted in *.
  rewrite !where_str_parts in E. rewrite !build_query_clauses in *.
  cbn [app forallb literal_quote_free] in Hq, Hq'.
  apply andb_true_iff in Hq, Hq'. destruct Hq as [Hs Hq], Hq' as [Hs' Hq'].
  rewrite forallb_app in Hq, Hq'.
  apply andb_true_iff in Hq, Hq'. destruct Hq as [_ Hd], Hq' as [_ Hd'].
  set (D := match selected_district with
            | Some d => if String.eqb d "" || String.eqb d WHOLE_REGION_SENTINEL
                        then [] else [district_eq d]
            | None => []
            end) in *.
  set (D' := match selected_district' with
             | Some d => if String.eqb d "" || String.eqb d WHOLE_REGION_SENTINEL
                         then [] else [district_eq d]
             | None => []
             end) in *.
  assert (HD : exists T, (T = "" \/ exists u, T = String " " u)
             /\ match selected_district with
                | Some d => if String.eqb d "" || String.eqb d WHOLE_REGION_SENTINEL
                            then "" else " AND district = '" ++ d ++ "'"
                | None => ""
                end = T
             /\ (D = [] /\ T = ""
                 \/ exists d, D = [district_eq d] /\ quote_free d = true
                              /\ T = " AND district = '" ++ d ++ "'")).
  { subst D. destruct selected_district as [d|].
    - destruct (String.eqb d "" || String.eqb d WHOLE_REGION_SENTINEL).
      + exists "". repeat split; auto.
      + eexists. split; [right; eexists; reflexivity|]. split; [reflexivity|].
        right. exists d. repeat split. simpl in Hd. now rewrite andb_true_r in Hd.
    - exists "". repeat split; auto. }
  assert (HD' : exists T, (T = "" \/ exists u, T = String " " u)
             /\ match selected_district' with
                | Some d => if String.eqb d "" || String.eqb d WHOLE_REGION_SENTINEL
                            then "" else " AND district = '" ++ d ++ "'"
                | None => ""
                end = T
             /\ (D' = [] /\ T = ""
                 \/ exists d, D' = [district_eq d] /\ quote_free d = true
                              /\ T = " AND district = '" ++ d ++ "'")).
  { subst D'. destruct selected_district' as [d|].
    - destruct (String.eqb d "" || String.eqb d WHOLE_REGION_SENTINEL).
      + exists "". repeat split; auto.
      + eexists. split; [right; eexists; reflexivity|]. split; [reflexivity|].
        right. exists d. repeat split. simpl in Hd'. now rewrite andb_true_r in Hd'.
    - exists "". repeat split; auto. }
  destruct HD as [T [HT [ET HDT]]], HD' as [T' [HT' [ET' HDT']]].
  rewrite ET, ET' in E. clear ET ET' Hd Hd'.
  apply append_inj_l in E.
  change ("'" ++ ?x) with (String "'" x) in E.
  apply (lacks_split "'" _ _ _ _ Hs Hs') in E;
    [|right; eexists; reflexivity|right; eexists; reflexivity].
  destruct E as [<- E]. injection E as E.
  assert (Hend : T = T' -> D = D').
  { intros <-. destruct HDT as [[-> ->]|[d [-> [Hqd ->]]]],
                        HDT' as [[-> E']|[d' [-> [Hqd' E']]]];
      try reflexivity; try discriminate.
    apply (append_inj_l " AND district = '") in E'.
    apply (lacks_split "'" _ _ _ _ Hqd Hqd') in E'; [|right; eauto|right; eauto].
    now destruct E' as [-> _]. }
  destruct flag, flag'.
  - simpl in E. now rewrite (Hend E).
  - exfalso. cbn [append] in E.
    destruct HDT as [[_ ->]|[d [_ [_ ->]]]]; [discriminate|].
    cbn [append] in E. discriminate.
  - exfalso. cbn [append] in E.
    destruct HDT' as [[_ ->]|[d [_ [_ ->]]]]; [discriminate|].
    cbn [append] in E. discriminate.
  - cbn [append] in E. injection E as E.
    rewrite !append_assoc in E. cbn [append] in E.
    apply (lacks_split " " _ _ _ _ (int_text_lacks_space year)
             (int_text_lacks_space year')) in E;
      [|right; eexists; reflexivity|right; eexists; reflexivity].
    destruct E as [Ey E]. injection E as E.
    apply (lacks_split " " _ _ _ _ (int_text_lacks_space month)
             (int_text_lacks_space month') HT HT') in E.
    destruct E as [Em E].
    apply int_text_inj in Ey, Em. subst year' month'. now rewrite (Hend E).
Qed.

(** The panel selections of region A with no district, and with the
    sentinel and another year and month: one text, one filter. *)
Lemma where_str_determines_the_filter_witness :
  where_clauses (build_query DATA_PATH "A" 2020 1 true None)
  = where_clauses (build_query DATA_PATH "A" 2019 7 true (Some WHOLE_REGION_SENTINEL)).
Proof.
  apply (where_str_determines_the_filter DATA_PATH DATA_PATH "A" "A" 2020 2019 1 7
           true true None (Some WHOLE_REGION_SENTINEL)); reflexivity.
Defined.
